(** * Routing, fallback and cost estimation of the generation gateway

    A shallow embedding of [app/cost_tracker.py], [app/config.py],
    [app/models.py], [app/router.py], the two adapters in [app/providers]
    and the [/generate] handler of [app/main.py].  Inside [run_generation]
    the provider adapters are opaque functions from the call arguments to an
    outcome; the usage logger is an append-only sink whose [log] call may
    raise.  The adapters themselves are embedded over an opaque HTTP client
    and Bedrock runtime.  [estimate_cost_f64] evaluates the cost formula in
    binary64 and rounds it as CPython's [round(x, 8)] does; everywhere else
    (configuration, requests, the estimates carried by a run) Python floats
    are read as exact rationals [Q], with [round8] the rounding of the exact
    value to 8 decimals, ties to even. *)

From Stdlib Require Import String Ascii List ZArith QArith Lia Bool DecimalString.
From Stdlib Require Import Floats.SpecFloat.
Import ListNotations.

Open Scope Z_scope.

(* ------------------------------------------------------------------ *)
(** ** cost_tracker.py *)

(** Python's [int(x)] on a float: truncation toward zero. *)
Definition py_int (q : Q) : Z := Z.quot (Qnum q) (Zpos (Qden q)).

(** Python's [len(text) / 4]: a true division (exact on the lengths that
    occur). *)
Definition py_len_div4 (s : string) : Q := Z.of_nat (String.length s) # 4.

(** [est_tokens]: [if not text: return 0; return max(1, int(len(text) / 4))]. *)
Definition est_tokens (text : string) : Z :=
  match text with
  | EmptyString => 0
  | _ => Z.max 1 (py_int (py_len_div4 text))
  end.

Record CostEstimate := {
  input_tokens_est : Z;
  output_tokens_est : Z;
  total_tokens_est : Z;
  cost_est_usd : Q
}.

(** Integer rounding of [n / d] (for [d > 0]) to the nearest integer, ties to
    the even neighbour, as Python's [round] does. *)
Definition round_half_even (n d : Z) : Z :=
  let q := n / d in
  let r := n mod d in
  match Z.compare (2 * r) d with
  | Lt => q
  | Gt => q + 1
  | Eq => if Z.even q then q else q + 1
  end.

(** [round(x, 8)] on the exact value [x]: the nearest multiple of
    [10^-8], ties to even (see [py_round8] for the float version). *)
Definition round8 (x : Q) : Q :=
  let y := (x * (10 ^ 8 # 1))%Q in
  round_half_even (Qnum y) (Zpos (Qden y)) # (10 ^ 8).

(** [estimate_cost] over exact rationals; the [provider] argument is not
    used by the body.  [estimate_cost_f64] below is its binary64 version. *)
Definition estimate_cost (provider prompt output_text : string)
    (cost_per_1k_input_usd cost_per_1k_output_usd : Q) : CostEstimate :=
  let in_tok := est_tokens prompt in
  let out_tok := est_tokens output_text in
  let total := in_tok + out_tok in
  let cost := ((inject_Z in_tok / 1000) * cost_per_1k_input_usd
              + (inject_Z out_tok / 1000) * cost_per_1k_output_usd)%Q in
  {| input_tokens_est := in_tok;
     output_tokens_est := out_tok;
     total_tokens_est := total;
     cost_est_usd := round8 cost |}.

(** *** [estimate_cost] in binary64

    CPython floats are IEEE binary64 numbers: the Standard Library's
    [spec_float] with 53 bits of precision and maximal exponent 1024, whose
    operations round to nearest, ties to even. *)
Definition f64_prec : Z := 53.
Definition f64_emax : Z := 1024.

Definition f64_add := SFadd f64_prec f64_emax.
Definition f64_mul := SFmul f64_prec f64_emax.
Definition f64_div := SFdiv f64_prec f64_emax.

(** [float(n)] of a Python int, as [int / float] converts it. *)
Definition f64_of_int (n : Z) : spec_float := binary_normalize f64_prec f64_emax n 0 false.

(** The literal [1000.0]. *)
Definition f64_1000 : spec_float := f64_of_int 1000.

(** The double nearest to [n / d] (for [n >= 0]) with sign [s], as the
    correctly rounded [_Py_dg_strtod] reads a decimal string. *)
Definition f64_of_ratio (s : bool) (n : Z) (d : positive) : spec_float :=
  if Z.eqb n 0 then S754_zero s
  else let '(m, e, l) := SFdiv_core_binary f64_prec f64_emax n 0 (Zpos d) 0 in
       binary_round_aux f64_prec f64_emax s m e l.

(** The exact value [m * 2 ^ e] of a finite double's magnitude. *)
Definition f64_abs_Q (m : positive) (e : Z) : Q :=
  match e with
  | Zneg p => Zpos m # (2 ^ p)
  | _ => (Zpos m * 2 ^ e) # 1
  end.

(** The exact value of a double (0 for infinities and NaN). *)
Definition f64_to_Q (x : spec_float) : Q :=
  match x with
  | S754_finite s m e => if s then Qopp (f64_abs_Q m e) else f64_abs_Q m e
  | _ => 0%Q
  end.

(** Python's [round(x, 8)] on a float ([double_round]): [_Py_dg_dtoa] in
    mode 3 rounds the exact value of [|x|] to 8 decimals, ties to even, and
    [_Py_dg_strtod] reads the signed result back; NaN and infinities are
    returned as they are. *)
Definition py_round8 (x : spec_float) : spec_float :=
  match x with
  | S754_finite s m e =>
      let y := (f64_abs_Q m e * (10 ^ 8 # 1))%Q in
      f64_of_ratio s (round_half_even (Qnum y) (Zpos (Qden y))) (10 ^ 8)
  | _ => x
  end.

Record CostEstimateF64 := {
  f_input_tokens_est : Z;
  f_output_tokens_est : Z;
  f_total_tokens_est : Z;
  f_cost_est_usd : spec_float
}.

(** [estimate_cost] with its float arithmetic in binary64. *)
Definition estimate_cost_f64 (provider prompt output_text : string)
    (cost_per_1k_input_usd cost_per_1k_output_usd : spec_float) : CostEstimateF64 :=
  let in_tok := est_tokens prompt in
  let out_tok := est_tokens output_text in
  let total := in_tok + out_tok in
  let cost := f64_add (f64_mul (f64_div (f64_of_int in_tok) f64_1000) cost_per_1k_input_usd)
                      (f64_mul (f64_div (f64_of_int out_tok) f64_1000) cost_per_1k_output_usd) in
  {| f_input_tokens_est := in_tok;
     f_output_tokens_est := out_tok;
     f_total_tokens_est := total;
     f_cost_est_usd := py_round8 cost |}.

(** [math.isfinite] of a float. *)
Definition f64_is_finite (x : spec_float) : bool :=
  match x with
  | S754_zero _ | S754_finite _ _ _ => true
  | _ => false
  end.

(* ------------------------------------------------------------------ *)
(** ** config.py *)

Record AzureConfig := {
  endpoint : string;
  api_key : string;
  api_version : string;
  deployment_low_cost : string;
  deployment_high_quality : string;
  deployment_low_latency : string
}.

Record BedrockConfig := {
  region : string;
  model_low_cost : string;
  model_high_quality : string;
  model_low_latency : string
}.

Record AppConfig := {
  env : string;
  log_db_path : string;
  hard_timeout_s : Q;
  enable_request_logging : bool;
  azure_cost_per_1k_input_usd : Q;
  azure_cost_per_1k_output_usd : Q;
  bedrock_cost_per_1k_input_usd : Q;
  bedrock_cost_per_1k_output_usd : Q
}.

(** [load_config()] with none of the optional variables set: the defaults
    written in [load_config]. *)
Definition default_app_config : AppConfig := {|
  env := "dev";
  log_db_path := "./usage_logs.sqlite";
  hard_timeout_s := 20 # 1;
  enable_request_logging := true;
  azure_cost_per_1k_input_usd := 15 # 100000;
  azure_cost_per_1k_output_usd := 60 # 100000;
  bedrock_cost_per_1k_input_usd := 25 # 100000;
  bedrock_cost_per_1k_output_usd := 125 # 100000
|}.

(* ------------------------------------------------------------------ *)
(** ** models.py *)

Inductive Priority := low_cost | low_latency | high_quality.

Definition priority_str (p : Priority) : string :=
  match p with
  | low_cost => "low_cost"
  | low_latency => "low_latency"
  | high_quality => "high_quality"
  end.

Inductive Task := chat | summarise | extract | classify | rewrite | qa.

Definition task_str (t : Task) : string :=
  match t with
  | chat => "chat"
  | summarise => "summarise"
  | extract => "extract"
  | classify => "classify"
  | rewrite => "rewrite"
  | qa => "qa"
  end.

(** [Optional[Literal["azure", "bedrock"]]]. *)
Inductive ProviderHint := hint_azure | hint_bedrock.

Definition hint_str (h : ProviderHint) : string :=
  match h with
  | hint_azure => "azure"
  | hint_bedrock => "bedrock"
  end.

Record GenerateRequest := {
  prompt : string;
  task : Task;
  priority : Priority;
  max_output_tokens : Z;
  temperature : Q;
  top_p : Q;
  provider_hint : option ProviderHint;
  metadata : list (string * string)
}.

Record ProviderResponse := {
  provider : string;
  model : string;
  text : string;
  latency_ms : Z;
  usage : CostEstimate
}.

Record GenerateResponse := {
  request_id : string;
  chosen_provider : string;
  chosen_model : string;
  resp_text : string;
  resp_latency_ms : Z;
  fallback_used : bool;
  attempts : list ProviderResponse
}.

(* ------------------------------------------------------------------ *)
(** ** router.py: system prompt and routing *)

Definition newline : string := String (ascii_of_nat 10) EmptyString.

Definition build_system_prompt (t : Task) : string :=
  let base :=
    ("You are a helpful enterprise assistant. "
     ++ "Be concise, correct, and safe. "
     ++ "If the user requests sensitive personal data, refuse. "
     ++ "If uncertain, say you are uncertain and ask a short clarifying question.")%string in
  let task_hint :=
    match t with
    | summarise => "Summarise the input in bullet points, capturing key facts and decisions."
    | extract => "Extract key entities/fields as JSON. If a field is missing, set it to null."
    | classify => "Classify the input into a small set of labels and explain briefly."
    | rewrite => "Rewrite for clarity and professionalism without changing meaning."
    | qa => "Answer the question using the provided text. If missing context, say so."
    | chat => "Respond naturally and helpfully."
    end%string in
  (base ++ newline ++ newline ++ "Task: " ++ task_hint)%string.

(** A selection [(provider_name, model_or_deployment)]. *)
Definition Selection := (string * string)%type.

(** The [if priority == ... elif ... else] block of [choose_models]. *)
Definition routing_table (p : Priority) (azure : AzureConfig) (bedrock : BedrockConfig)
    : Selection * Selection :=
  match p with
  | low_cost => (("bedrock", model_low_cost bedrock), ("azure", deployment_low_cost azure))
  | high_quality =>
      (("bedrock", model_high_quality bedrock), ("azure", deployment_high_quality azure))
  | low_latency =>
      (("azure", deployment_low_latency azure), ("bedrock", model_low_latency bedrock))
  end%string.

(** [req.provider_hint == s]. *)
Definition hint_is (h : option ProviderHint) (s : string) : bool :=
  match h with
  | Some x => String.eqb (hint_str x) s
  | None => false
  end.

Definition choose_models (req : GenerateRequest) (azure : AzureConfig)
    (bedrock : BedrockConfig) : Selection * Selection :=
  let '(primary, secondary) := routing_table (priority req) azure bedrock in
  if hint_is (provider_hint req) "azure" && negb (String.eqb (fst primary) "azure")
  then (secondary, primary)
  else if hint_is (provider_hint req) "bedrock" && negb (String.eqb (fst primary) "bedrock")
  then (secondary, primary)
  else (primary, secondary).

(* ------------------------------------------------------------------ *)
(** ** JSON values as the adapters see them after [json.loads] *)

Set Warnings "-register-all".

Inductive Json :=
| JNull
| JBool (b : bool)
| JNum (q : Q)
| JStr (s : string)
| JArr (l : list Json)
| JObj (kvs : list (string * Json)).

(** A parsed object keeps the last value of a repeated key. *)
Fixpoint obj_lookup (kvs : list (string * Json)) (k : string) : option Json :=
  match kvs with
  | [] => None
  | (k', v) :: rest =>
      match obj_lookup rest k with
      | Some v' => Some v'
      | None => if String.eqb k k' then Some v else None
      end
  end.

(** Python truthiness of a JSON value. *)
Definition py_truthy (j : Json) : bool :=
  match j with
  | JNull => false
  | JBool b => b
  | JNum q => negb (Qeq_bool q 0)
  | JStr s => negb (String.eqb s EmptyString)
  | JArr l => match l with [] => false | _ => true end
  | JObj kvs => match kvs with [] => false | _ => true end
  end.

(** [len(x)] of a JSON value: a string's, list's or dict's size (a parsed
    dict has one entry per distinct key); a number or a boolean has none
    ([TypeError]). *)
Definition py_len (v : Json) : option nat :=
  match v with
  | JStr s => Some (String.length s)
  | JArr l => Some (length l)
  | JObj kvs => Some (length (nodup string_dec (map fst kvs)))
  | _ => None
  end.

(** [est_tokens(text)] when [text] is whatever JSON value an adapter
    returned: [None] when [len] raises. *)
Definition est_tokens_value (text : Json) : option Z :=
  if negb (py_truthy text) then Some 0
  else match py_len text with
       | Some n => Some (Z.max 1 (py_int (Z.of_nat n # 4)))
       | None => None
       end.

(** [estimate_cost] on such an [output_text]: [None] when [est_tokens]
    raises. *)
Definition estimate_cost_value (provider prompt : string) (output_text : Json)
    (cost_per_1k_input_usd cost_per_1k_output_usd : Q) : option CostEstimate :=
  let in_tok := est_tokens prompt in
  match est_tokens_value output_text with
  | None => None
  | Some out_tok =>
      let total := in_tok + out_tok in
      let cost := ((inject_Z in_tok / 1000) * cost_per_1k_input_usd
                  + (inject_Z out_tok / 1000) * cost_per_1k_output_usd)%Q in
      Some {| input_tokens_est := in_tok;
              output_tokens_est := out_tok;
              total_tokens_est := total;
              cost_est_usd := round8 cost |}
  end.

(* ------------------------------------------------------------------ *)
(** ** Effects: provider adapters, the usage sink and exceptions *)

(** The keyword arguments of [LLMProvider.generate]. *)
Record GenCall := {
  gc_prompt : string;
  gc_system_prompt : string;
  gc_model_or_deployment : string;
  gc_max_output_tokens : Z;
  gc_temperature : Q;
  gc_top_p : Q;
  gc_timeout_s : Q
}.

(** What a call to [generate] does: return a [ProviderResult] or raise with
    a message.  [GenOk] is a result whose [text] is a [str]; [GenOkValue] one
    whose [text] is the JSON value the provider sent, which the adapters do
    not always check (the Azure adapter returns [message.content] as it is,
    [None] included). *)
Inductive GenOutcome :=
| GenOk (out_text : string) (out_latency_ms : Z)
| GenOkValue (out_text : Json) (out_latency_ms : Z)
| GenFail (msg : string).

(** One row of [usage_logs]; the [ts] column is read from the wall clock and
    the [id] column is assigned by the database, neither is modelled. *)
Record UsageRecord := {
  ur_request_id : string;
  ur_provider : string;
  ur_model : string;
  ur_task : string;
  ur_priority : string;
  ur_estimate : CostEstimate;
  ur_latency_ms : Z;
  ur_success : bool;
  ur_error : option string
}.

(** The collaborators [run_generation] receives: the two adapters and the
    usage logger, whose [n]-th [log] call raises with [log_fault n] when that
    is [Some msg] (and then writes nothing).  [len_error v] is [str()] of the
    [TypeError] [len(v)] raises, [validation_error v] that of the pydantic
    [ValidationError] [ProviderResponse(text=v, ...)] raises; their wording is
    Python's and pydantic's and is left open. *)
Record Env := {
  azure_provider : GenCall -> GenOutcome;
  bedrock_provider : GenCall -> GenOutcome;
  log_fault : nat -> option string;
  len_error : Json -> string;
  validation_error : Json -> string
}.

(** The exceptions that reach an [except Exception] handler. *)
Inductive Exn :=
| ProviderError (msg : string)
| SinkError (msg : string)
| TypeError (msg : string)
| ValidationError (msg : string)
| RuntimeError (msg : string).

(** [str(e)]. *)
Definition exn_str (e : Exn) : string :=
  match e with
  | ProviderError m | SinkError m | TypeError m | ValidationError m | RuntimeError m => m
  end.

(** The durable sink and the number of [log] calls made so far. *)
Record St := {
  usage_logs : list UsageRecord;
  log_calls : nat
}.

Inductive Res (A : Type) :=
| Ok (a : A)
| Raise (e : Exn).
Arguments Ok {A} a.
Arguments Raise {A} e.

(** A state and exception monad. *)
Definition M (A : Type) := St -> Res A * St.

Definition ret {A} (a : A) : M A := fun s => (Ok a, s).

Definition bind {A B} (m : M A) (k : A -> M B) : M B :=
  fun s => match m s with
           | (Ok a, s') => k a s'
           | (Raise e, s') => (Raise e, s')
           end.

Definition raise {A} (e : Exn) : M A := fun s => (Raise e, s).

(** [try: m  except Exception as e: h(e)]. *)
Definition try_except {A} (m : M A) (h : Exn -> M A) : M A :=
  fun s => match m s with
           | (Ok a, s') => (Ok a, s')
           | (Raise e, s') => h e s'
           end.

Notation "x <- m ;; k" := (bind m (fun x => k)) (at level 61, m at next level, right associativity).
Notation "m ;;; k" := (bind m (fun _ => k)) (at level 61, right associativity).

(** [UsageLogger.log]: one [INSERT], committed, or an exception. *)
Definition usage_log (e : Env) (r : UsageRecord) : M unit :=
  fun s =>
    match log_fault e (log_calls s) with
    | Some m => (Raise (SinkError m), {| usage_logs := usage_logs s; log_calls := S (log_calls s) |})
    | None => (Ok tt, {| usage_logs := usage_logs s ++ [r]; log_calls := S (log_calls s) |})
    end.

(* ------------------------------------------------------------------ *)
(** ** router.py: [run_generation] *)

(** The [if provider_name == "azure": ... else: ...] of [call]: the adapter
    invoked, the [provider] literal given to [estimate_cost] and the prices. *)
Definition provider_route (e : Env) (app_cfg : AppConfig) (provider_name : string)
    : (GenCall -> GenOutcome) * string * Q * Q :=
  if String.eqb provider_name "azure"
  then (azure_provider e, "azure"%string,
        azure_cost_per_1k_input_usd app_cfg, azure_cost_per_1k_output_usd app_cfg)
  else (bedrock_provider e, "bedrock"%string,
        bedrock_cost_per_1k_input_usd app_cfg, bedrock_cost_per_1k_output_usd app_cfg).

Definition gen_call (app_cfg : AppConfig) (req : GenerateRequest)
    (system_prompt model_id : string) : GenCall := {|
  gc_prompt := prompt req;
  gc_system_prompt := system_prompt;
  gc_model_or_deployment := model_id;
  gc_max_output_tokens := max_output_tokens req;
  gc_temperature := temperature req;
  gc_top_p := top_p req;
  gc_timeout_s := hard_timeout_s app_cfg
|}.

(** What the adapter answers when [call] invokes it for a selection. *)
Definition invoke (e : Env) (app_cfg : AppConfig) (req : GenerateRequest)
    (system_prompt : string) (sel : Selection) : GenOutcome :=
  let '(gen, _, _, _) := provider_route e app_cfg (fst sel) in
  gen (gen_call app_cfg req system_prompt (snd sel)).

(** The [# log success] block of [call]. *)
Definition log_success (e : Env) (app_cfg : AppConfig) (req : GenerateRequest)
    (rid provider_name model_id : string) (est : CostEstimate) (lat : Z) : M unit :=
  if enable_request_logging app_cfg
  then usage_log e {| ur_request_id := rid; ur_provider := provider_name;
                      ur_model := model_id; ur_task := task_str (task req);
                      ur_priority := priority_str (priority req);
                      ur_estimate := est; ur_latency_ms := lat;
                      ur_success := true; ur_error := None |}
  else ret tt.

(** The nested function [call] of [run_generation]: the adapter call,
    [estimate_cost] on [result.text], the success record, then
    [ProviderResponse(text=result.text, ...)], which pydantic rejects unless
    the text is a [str]. *)
Definition call (e : Env) (app_cfg : AppConfig) (req : GenerateRequest)
    (system_prompt rid provider_name model_id : string) : M ProviderResponse :=
  let '(gen, est_provider, cin, cout) := provider_route e app_cfg provider_name in
  match gen (gen_call app_cfg req system_prompt model_id) with
  | GenFail m => raise (ProviderError m)
  | GenOk out lat =>
      let est := estimate_cost est_provider (prompt req) out cin cout in
      log_success e app_cfg req rid provider_name model_id est lat ;;;
      ret {| provider := provider_name; model := model_id; text := out;
             latency_ms := lat; usage := est |}
  | GenOkValue v lat =>
      match estimate_cost_value est_provider (prompt req) v cin cout with
      | None => raise (TypeError (len_error e v))
      | Some est =>
          log_success e app_cfg req rid provider_name model_id est lat ;;;
          match v with
          | JStr out => ret {| provider := provider_name; model := model_id; text := out;
                               latency_ms := lat; usage := est |}
          | _ => raise (ValidationError (validation_error e v))
          end
      end
  end.

(** The estimate logged for a failed attempt. *)
Definition failure_estimate (req : GenerateRequest) : CostEstimate := {|
  input_tokens_est := est_tokens (prompt req);
  output_tokens_est := 0;
  total_tokens_est := est_tokens (prompt req);
  cost_est_usd := 0
|}.

(** The [if app_cfg.enable_request_logging: ... usage_logger.log(...,
    success=False, error=str(e)[:500])] of each [except] handler. *)
Definition log_attempt_failure (e : Env) (app_cfg : AppConfig) (req : GenerateRequest)
    (rid : string) (sel : Selection) (err : Exn) : M unit :=
  if enable_request_logging app_cfg
  then usage_log e {| ur_request_id := rid; ur_provider := fst sel; ur_model := snd sel;
                      ur_task := task_str (task req);
                      ur_priority := priority_str (priority req);
                      ur_estimate := failure_estimate req; ur_latency_ms := 0;
                      ur_success := false;
                      ur_error := Some (substring 0 500 (exn_str err)) |}
  else ret tt.

Definition both_failed_message (e1 e2 : Exn) : string :=
  ("Both providers failed. Primary: " ++ exn_str e1 ++ "; Secondary: " ++ exn_str e2)%string.

(** [run_generation]; [rid] is the [str(uuid.uuid4())] it mints.  The triple
    threaded out of the [try] blocks is [(chosen, attempts, fallback_used)]. *)
Definition run_generation (app_cfg : AppConfig) (azure_cfg : AzureConfig)
    (bedrock_cfg : BedrockConfig) (req : GenerateRequest) (e : Env) (rid : string)
    : M GenerateResponse :=
  let system_prompt := build_system_prompt (task req) in
  let '(primary, secondary) := choose_models req azure_cfg bedrock_cfg in
  outcome <-
    try_except
      (pr <- call e app_cfg req system_prompt rid (fst primary) (snd primary) ;;
       ret (pr, [pr], false))
      (fun e1 =>
         log_attempt_failure e app_cfg req rid primary e1 ;;;
         try_except
           (sr <- call e app_cfg req system_prompt rid (fst secondary) (snd secondary) ;;
            ret (sr, [sr], true))
           (fun e2 =>
              log_attempt_failure e app_cfg req rid secondary e2 ;;;
              raise (RuntimeError (both_failed_message e1 e2)))) ;;
  let '(chosen, atts, fb) := outcome in
  ret {| request_id := rid; chosen_provider := provider chosen;
         chosen_model := model chosen; resp_text := text chosen;
         resp_latency_ms := latency_ms chosen; fallback_used := fb;
         attempts := atts |}.

(* ------------------------------------------------------------------ *)
(** ** Concrete configurations and collaborators *)

Definition sample_azure : AzureConfig := {|
  endpoint := "https://example.openai.azure.com";
  api_key := "key";
  api_version := "2024-02-15-preview";
  deployment_low_cost := "gpt-4o-mini";
  deployment_high_quality := "gpt-4o";
  deployment_low_latency := "gpt-4o-mini-fast"
|}.

Definition sample_bedrock : BedrockConfig := {|
  region := "us-east-1";
  model_low_cost := "claude-haiku";
  model_high_quality := "claude-sonnet";
  model_low_latency := "claude-haiku-fast"
|}.

Definition sample_request (p : Priority) (h : option ProviderHint) : GenerateRequest := {|
  prompt := "Summarise the quarterly report";
  task := summarise;
  priority := p;
  max_output_tokens := 512;
  temperature := 2 # 10;
  top_p := 9 # 10;
  provider_hint := h;
  metadata := []
|}.

Definition always_ok (t : string) : GenCall -> GenOutcome := fun _ => GenOk t 120.
Definition always_fail (m : string) : GenCall -> GenOutcome := fun _ => GenFail m.
Definition no_fault : nat -> option string := fun _ => None.

(** The wording CPython and pydantic 2 give to the two exceptions. *)
Definition sample_len_error (_ : Json) : string := "object of type 'int' has no len()".
Definition sample_validation_error (_ : Json) : string :=
  ("1 validation error for ProviderResponse" ++ newline ++ "text" ++ newline
   ++ "  Input should be a valid string")%string.

Definition make_env (az bd : GenCall -> GenOutcome) (lf : nat -> option string) : Env := {|
  azure_provider := az;
  bedrock_provider := bd;
  log_fault := lf;
  len_error := sample_len_error;
  validation_error := sample_validation_error
|}.

Definition initial_state : St := {| usage_logs := []; log_calls := 0 |}.

Definition repeat_string (n : nat) (c : ascii) : string :=
  Nat.iter n (String c) EmptyString.

(* ------------------------------------------------------------------ *)
(** ** Reference definitions written from the spec's words *)

(** Spec 4.1: [tokens = max(1, floor(char_count / 4))] for non-empty text,
    [0] for empty text. *)
Definition tokens_ref (text : string) : Z :=
  if (String.length text =? 0)%nat then 0
  else Z.max 1 (Z.of_nat (String.length text) / 4).

(** Spec 4.1: the cost estimate of a prompt and an output. *)
Definition estimate_cost_ref (prompt_text output_text : string)
    (input_unit_price output_unit_price : Q) : CostEstimate :=
  let i := tokens_ref prompt_text in
  let o := tokens_ref output_text in
  {| input_tokens_est := i;
     output_tokens_est := o;
     total_tokens_est := i + o;
     cost_est_usd := round8 ((inject_Z i / 1000) * input_unit_price
                             + (inject_Z o / 1000) * output_unit_price)%Q |}.

(* ------------------------------------------------------------------ *)
(** ** Definitions used by the statements on [run_generation] *)

Definition response_of (rid : string) (chosen : ProviderResponse)
    (atts : list ProviderResponse) (fb : bool) : GenerateResponse := {|
  request_id := rid; chosen_provider := provider chosen;
  chosen_model := model chosen; resp_text := text chosen;
  resp_latency_ms := latency_ms chosen; fallback_used := fb; attempts := atts
|}.

(** The logger is reliable for a run: logging is off or [log] never raises. *)
Definition reliable_logging (app_cfg : AppConfig) (e : Env) : Prop :=
  enable_request_logging app_cfg = false \/ forall n, log_fault e n = None.


(** The same collaborators with another usage logger. *)
Definition with_log_fault (e : Env) (lf : nat -> option string) : Env := {|
  azure_provider := azure_provider e;
  bedrock_provider := bedrock_provider e;
  log_fault := lf;
  len_error := len_error e;
  validation_error := validation_error e
|}.

(** What an attempt ([call] on a selection) raises when the logger does
    not: the adapter's exception, the [TypeError] of [est_tokens] on a text
    without a length, or the [ValidationError] of [ProviderResponse] on any
    other text that is not a [str]; [None] when it returns. *)
Definition attempt_error (e : Env) (app_cfg : AppConfig) (req : GenerateRequest)
    (sp : string) (sel : Selection) : option Exn :=
  match invoke e app_cfg req sp sel with
  | GenFail m => Some (ProviderError m)
  | GenOk _ _ => None
  | GenOkValue (JStr _) _ => None
  | GenOkValue v _ =>
      match est_tokens_value v with
      | None => Some (TypeError (len_error e v))
      | Some _ => Some (ValidationError (validation_error e v))
      end
  end.



Definition env_both_fail : Env :=
  make_env (always_fail "read timeout") (always_fail "HTTP 503")
    no_fault.

(** Bedrock (the [low_cost] primary) fails, Azure answers. *)
Definition env_primary_fails : Env :=
  make_env (always_ok "fallback answer") (always_fail "HTTP 500")
    no_fault.

(** Both providers answer; the usage database is unavailable. *)
Definition env_sink_down : Env :=
  make_env (always_ok "azure answer") (always_ok "bedrock answer")
    (fun _ => Some "database is locked"%string).

(** Both providers answer; only the first [log] call raises. *)
Definition env_sink_glitch : Env :=
  make_env (always_ok "azure answer") (always_ok "bedrock answer")
    (fun n => match n with O => Some "disk I/O error"%string | S _ => None end).


(* ------------------------------------------------------------------ *)
(** ** Python string helpers

    Characters are code points below 256 (Latin-1). *)

(** [str.isspace] on one character. *)
Definition py_isspace (c : ascii) : bool :=
  let n := nat_of_ascii c in
  (((9 <=? n) && (n <=? 13)) || ((28 <=? n) && (n <=? 32)) || (n =? 133) || (n =? 160))%nat.

Fixpoint lstrip_by (p : ascii -> bool) (s : string) : string :=
  match s with
  | EmptyString => EmptyString
  | String c s' => if p c then lstrip_by p s' else s
  end.

Fixpoint rstrip_by (p : ascii -> bool) (s : string) : string :=
  match s with
  | EmptyString => EmptyString
  | String c s' =>
      match rstrip_by p s' with
      | EmptyString => if p c then EmptyString else String c EmptyString
      | r => String c r
      end
  end.

(** [s.strip()]. *)
Definition py_strip (s : string) : string := rstrip_by py_isspace (lstrip_by py_isspace s).

(** [str.lower] on one character. *)
Definition py_lower_char (c : ascii) : ascii :=
  let n := nat_of_ascii c in
  if (((65 <=? n) && (n <=? 90)) || ((192 <=? n) && (n <=? 222) && negb (n =? 215)))%nat
  then ascii_of_nat (n + 32)%nat else c.

Fixpoint py_lower (s : string) : string :=
  match s with
  | EmptyString => EmptyString
  | String c s' => String (py_lower_char c) (py_lower s')
  end.

(** [str(n)] of an int. *)
Definition z_str (z : Z) : string := NilZero.string_of_int (Z.to_int z).

(* ------------------------------------------------------------------ *)
(** ** config.py: [_get_env] and [load_config] *)

(** A computation that returns a value or raises [ValueError(msg)]. *)
Inductive Cfg (A : Type) :=
| CfgOk (a : A)
| CfgErr (msg : string).
Arguments CfgOk {A} a.
Arguments CfgErr {A} msg.

Definition cfg_bind {A B} (m : Cfg A) (k : A -> Cfg B) : Cfg B :=
  match m with
  | CfgOk a => k a
  | CfgErr msg => CfgErr msg
  end.

Notation "x <-? m ;; k" := (cfg_bind m (fun x => k)) (at level 61, m at next level, right associativity).

(** [_get_env(name, default, required)]; [environ] is [os.environ]. *)
Definition get_env (environ : string -> option string) (name : string)
    (default : option string) (required : bool) : Cfg (option string) :=
  let v := match environ name with Some x => Some x | None => default end in
  if required && match v with
                 | None => true
                 | Some x => String.eqb (py_strip x) ""
                 end
  then CfgErr ("Missing required environment variable: " ++ name)%string
  else CfgOk v.

(** [_get_env] at a call of [load_config]: every such call has a default or
    [required=True], so the [None] branch is never taken on success. *)
Definition env_str (environ : string -> option string) (name : string)
    (default : option string) (required : bool) : Cfg string :=
  v <-? get_env environ name default required ;;
  CfgOk (match v with Some x => x | None => EmptyString end).

Open Scope string_scope.

(** [load_config()]; [py_float] is the builtin [float] on strings, which
    returns a number or raises its own [ValueError]. *)
Definition load_config (environ : string -> option string) (py_float : string -> Cfg Q)
    : Cfg (AppConfig * AzureConfig * BedrockConfig) :=
  env_v <-? env_str environ "APP_ENV" (Some "dev") false ;;
  db <-? env_str environ "LOG_DB_PATH" (Some "./usage_logs.sqlite") false ;;
  t_raw <-? env_str environ "HARD_TIMEOUT_S" (Some "20") false ;;
  t <-? py_float t_raw ;;
  log_raw <-? env_str environ "ENABLE_REQUEST_LOGGING" (Some "true") false ;;
  ai_raw <-? env_str environ "AZURE_COST_PER_1K_INPUT_USD" (Some "0.00015") false ;;
  ai <-? py_float ai_raw ;;
  ao_raw <-? env_str environ "AZURE_COST_PER_1K_OUTPUT_USD" (Some "0.00060") false ;;
  ao <-? py_float ao_raw ;;
  bi_raw <-? env_str environ "BEDROCK_COST_PER_1K_INPUT_USD" (Some "0.00025") false ;;
  bi <-? py_float bi_raw ;;
  bo_raw <-? env_str environ "BEDROCK_COST_PER_1K_OUTPUT_USD" (Some "0.00125") false ;;
  bo <-? py_float bo_raw ;;
  let app := {| env := env_v; log_db_path := db; hard_timeout_s := t;
                enable_request_logging := String.eqb (py_lower log_raw) "true";
                azure_cost_per_1k_input_usd := ai; azure_cost_per_1k_output_usd := ao;
                bedrock_cost_per_1k_input_usd := bi; bedrock_cost_per_1k_output_usd := bo |} in
  ep <-? env_str environ "AZURE_OPENAI_ENDPOINT" None true ;;
  key <-? env_str environ "AZURE_OPENAI_API_KEY" None true ;;
  ver <-? env_str environ "AZURE_OPENAI_API_VERSION" (Some "2024-02-15-preview") false ;;
  dlc <-? env_str environ "AZURE_DEPLOYMENT_LOW_COST" None true ;;
  dhq <-? env_str environ "AZURE_DEPLOYMENT_HIGH_QUALITY" None true ;;
  dll <-? env_str environ "AZURE_DEPLOYMENT_LOW_LATENCY" None true ;;
  let azure := {| endpoint := ep; api_key := key; api_version := ver;
                  deployment_low_cost := dlc; deployment_high_quality := dhq;
                  deployment_low_latency := dll |} in
  rg <-? env_str environ "AWS_REGION" None true ;;
  mlc <-? env_str environ "BEDROCK_MODEL_LOW_COST" None true ;;
  mhq <-? env_str environ "BEDROCK_MODEL_HIGH_QUALITY" None true ;;
  mll <-? env_str environ "BEDROCK_MODEL_LOW_LATENCY" None true ;;
  let bedrock := {| region := rg; model_low_cost := mlc; model_high_quality := mhq;
                    model_low_latency := mll |} in
  CfgOk (app, azure, bedrock).

(** The variables [load_config] reads with [required=True]. *)
Definition required_vars : list string :=
  ["AZURE_OPENAI_ENDPOINT"; "AZURE_OPENAI_API_KEY"; "AZURE_DEPLOYMENT_LOW_COST";
   "AZURE_DEPLOYMENT_HIGH_QUALITY"; "AZURE_DEPLOYMENT_LOW_LATENCY"; "AWS_REGION";
   "BEDROCK_MODEL_LOW_COST"; "BEDROCK_MODEL_HIGH_QUALITY"; "BEDROCK_MODEL_LOW_LATENCY"]%string.

Close Scope string_scope.


(** The variables read for [AppConfig], each with a default. *)
Definition app_config_vars : list string :=
  ["APP_ENV"; "LOG_DB_PATH"; "HARD_TIMEOUT_S"; "ENABLE_REQUEST_LOGGING";
   "AZURE_COST_PER_1K_INPUT_USD"; "AZURE_COST_PER_1K_OUTPUT_USD";
   "BEDROCK_COST_PER_1K_INPUT_USD"; "BEDROCK_COST_PER_1K_OUTPUT_USD"]%string.

(** [os.getenv(name, default)]. *)
Definition env_or (environ : string -> option string) (name default : string) : string :=
  match environ name with Some x => x | None => default end.

(** An environment that sets only the required variables. *)
Definition sample_environ (n : string) : option string :=
  if existsb (String.eqb n) required_vars then Some ("value-of-" ++ n)%string else None.

(** [float] on the literals [load_config] uses as defaults. *)
Definition default_literal_float (s : string) : Cfg Q :=
  if String.eqb s "20" then CfgOk (20 # 1)
  else if String.eqb s "0.00015" then CfgOk (15 # 100000)
  else if String.eqb s "0.00060" then CfgOk (60 # 100000)
  else if String.eqb s "0.00025" then CfgOk (25 # 100000)
  else if String.eqb s "0.00125" then CfgOk (125 # 100000)
  else CfgErr ("could not convert string to float: " ++ s)%string.

(** [x[k]] for a string key: only an object has one ([KeyError] or
    [TypeError] otherwise). *)
Definition py_getitem_key (j : Json) (k : string) : option Json :=
  match j with
  | JObj kvs => obj_lookup kvs k
  | _ => None
  end.

(** [x[0]]: a list's first element, a string's first character. *)
Definition py_getitem_0 (j : Json) : option Json :=
  match j with
  | JArr (x :: _) => Some x
  | JStr (String c _) => Some (JStr (String c EmptyString))
  | _ => None
  end.

(** [d.get(k, default)] on a dict. *)
Definition obj_get (kvs : list (string * Json)) (k : string) (default : Json) : Json :=
  match obj_lookup kvs k with Some v => v | None => default end.

(** [ProviderResult]; [text] is not checked by the dataclass. *)
Record ProviderResult := {
  res_provider : string;
  res_model : string;
  res_text : Json;
  res_latency_ms : Z
}.

(** A call to an adapter's [generate]: a result, or an exception's message. *)
Inductive AdapterOutcome :=
| Returned (r : ProviderResult)
| Raised (msg : string).

(** [str(data)] of a parsed JSON value, as an f-string formats it. *)
Section Adapters.
Variable json_str : Json -> string.

(* ------------------------------------------------------------------ *)
(** ** providers/azure_openai.py *)

Record AzureOpenAIProvider := {
  az_endpoint : string;
  az_api_key : string;
  az_api_version : string
}.

(** [AzureOpenAIProvider.__init__]. *)
Definition make_azure_provider (ep key ver : string) : AzureOpenAIProvider := {|
  az_endpoint := rstrip_by (fun c => Ascii.eqb c "/"%char) ep;
  az_api_key := key;
  az_api_version := ver
|}.

Definition azure_url (self : AzureOpenAIProvider) (model_or_deployment : string) : string :=
  (az_endpoint self ++ "/openai/deployments/" ++ model_or_deployment ++ "/chat/completions"
   ++ "?api-version=" ++ az_api_version self)%string.

Definition azure_headers (self : AzureOpenAIProvider) : list (string * string) :=
  [("api-key", az_api_key self); ("Content-Type", "application/json")]%string.

Definition azure_payload (gc : GenCall) : Json :=
  JObj [("messages", JArr [JObj [("role", JStr "system"); ("content", JStr (gc_system_prompt gc))];
                           JObj [("role", JStr "user"); ("content", JStr (gc_prompt gc))]]);
        ("max_tokens", JNum (inject_Z (gc_max_output_tokens gc)));
        ("temperature", JNum (gc_temperature gc));
        ("top_p", JNum (gc_top_p gc))]%string.

(** What [client.post] returns: the status, [resp.text] and the outcome of
    [resp.json()] (a value, or the decoder's message). *)
Record HttpResponse := {
  status_code : Z;
  body_text : string;
  body_json : Json + string
}.

(** [data["choices"][0]["message"]["content"]]; [None] when it raises. *)
Definition azure_content (data : Json) : option Json :=
  match py_getitem_key data "choices" with
  | None => None
  | Some ch =>
      match py_getitem_0 ch with
      | None => None
      | Some c0 =>
          match py_getitem_key c0 "message" with
          | None => None
          | Some m => py_getitem_key m "content"
          end
      end
  end.

(** [AzureOpenAIProvider.generate]; [post] is the [httpx] request (a
    response, or the message of the exception it raises) and [latency_ms]
    the measured time. *)
Definition azure_generate (self : AzureOpenAIProvider)
    (post : string -> list (string * string) -> Json -> HttpResponse + string)
    (latency_ms : Z) (gc : GenCall) : AdapterOutcome :=
  match post (azure_url self (gc_model_or_deployment gc)) (azure_headers self) (azure_payload gc) with
  | inr msg => Raised msg
  | inl resp =>
      if 400 <=? status_code resp
      then Raised ("Azure OpenAI error " ++ z_str (status_code resp) ++ ": " ++ body_text resp)%string
      else match body_json resp with
           | inr msg => Raised msg
           | inl data =>
               match azure_content data with
               | None => Raised ("Unexpected Azure response format: " ++ json_str data)%string
               | Some t => Returned {| res_provider := "azure"; res_model := gc_model_or_deployment gc;
                                       res_text := t; res_latency_ms := latency_ms |}
               end
           end
  end.

(* ------------------------------------------------------------------ *)
(** ** providers/aws_bedrock.py *)

Definition bedrock_body (gc : GenCall) : Json :=
  JObj [("anthropic_version", JStr "bedrock-2023-05-31");
        ("max_tokens", JNum (inject_Z (gc_max_output_tokens gc)));
        ("temperature", JNum (gc_temperature gc));
        ("top_p", JNum (gc_top_p gc));
        ("messages", JArr [JObj [("role", JStr "user");
                                 ("content", JArr [JObj [("type", JStr "text");
                                   ("text", JStr (py_strip (gc_system_prompt gc ++ newline ++ newline
                                                            ++ gc_prompt gc)))]])]])]%string.

(** The [try] block of [generate]: the text it settles on, or [None] when it
    raises ([data] not a dict, or [content[0]] not a dict). *)
Definition bedrock_extract (data : Json) : option Json :=
  match data with
  | JObj kvs =>
      let content := obj_get kvs "content" (JArr []) in
      let first :=
        if py_truthy content && match content with JArr _ => true | _ => false end
        then match content with
             | JArr (JObj c0 :: _) => Some (obj_get c0 "text" (JStr ""))
             | _ => None
             end
        else Some (JStr "") in
      match first with
      | None => None
      | Some text => if py_truthy text then Some text else Some (obj_get kvs "completion" (JStr ""))
      end
  | _ => None
  end%string.

(** [AwsBedrockProvider.generate]; [invoke_model] is the runtime call
    followed by [json.loads] of the body (a value, or an exception's
    message). *)
Definition bedrock_generate (invoke_model : string -> Json -> Json + string)
    (latency_ms : Z) (gc : GenCall) : AdapterOutcome :=
  match invoke_model (gc_model_or_deployment gc) (bedrock_body gc) with
  | inr msg => Raised msg
  | inl data =>
      match bedrock_extract data with
      | None => Raised ("Unexpected Bedrock response format: " ++ json_str data)%string
      | Some text =>
          match text with
          | JStr s =>
              if String.eqb (py_strip s) ""
              then Raised ("Empty Bedrock completion. Raw: " ++ json_str data)%string
              else Returned {| res_provider := "bedrock"; res_model := gc_model_or_deployment gc;
                               res_text := text; res_latency_ms := latency_ms |}
          | _ => Raised ("Empty Bedrock completion. Raw: " ++ json_str data)%string
          end
      end
  end.

End Adapters.

(* ------------------------------------------------------------------ *)
(** ** main.py: [POST /generate] *)

Inductive HttpReply :=
| Http200 (r : GenerateResponse)
| HttpError (status : Z) (detail : string).

(** [generate(req)]: [run_generation], with any exception turned into
    [HTTPException(status_code=500, detail=str(e))]. *)
Definition generate_endpoint (app_cfg : AppConfig) (az : AzureConfig) (bd : BedrockConfig)
    (req : GenerateRequest) (e : Env) (rid : string) : M HttpReply :=
  try_except (r <- run_generation app_cfg az bd req e rid ;; ret (Http200 r))
             (fun ex => ret (HttpError 500 (exn_str ex))).

(** Every record a run appends satisfies [P]. *)
Definition appends_all (P : UsageRecord -> Prop) (s s' : St) : Prop :=
  exists new, usage_logs s' = usage_logs s ++ new /\ Forall P new.

(** The shape of a usage record written for request [req]. *)
Definition record_ok (req : GenerateRequest) (u : UsageRecord) : Prop :=
  ur_task u = task_str (task req) /\ ur_priority u = priority_str (priority req) /\
  ((ur_success u = true /\ ur_error u = None) \/
   (ur_success u = false /\ ur_latency_ms u = 0 /\
    ur_estimate u = failure_estimate req /\
    exists m, ur_error u = Some m /\ (String.length m <= 500)%nat)).

(** A success record's estimate is [estimate_cost] at the prices of the
    adapter [call] routes its provider name to. *)
Definition record_prices (app_cfg : AppConfig) (req : GenerateRequest) (u : UsageRecord) : Prop :=
  ur_success u = true ->
  exists out,
    ur_estimate u =
      if String.eqb (ur_provider u) "azure"
      then estimate_cost "azure" (prompt req) out (azure_cost_per_1k_input_usd app_cfg)
                         (azure_cost_per_1k_output_usd app_cfg)
      else estimate_cost "bedrock" (prompt req) out (bedrock_cost_per_1k_input_usd app_cfg)
                         (bedrock_cost_per_1k_output_usd app_cfg).

(** The property of the records written for a run with selections [sels]. *)
Definition run_record (app_cfg : AppConfig) (req : GenerateRequest) (rid : string)
    (sels : list Selection) (u : UsageRecord) : Prop :=
  ur_request_id u = rid /\ In (ur_provider u, ur_model u) sels /\
  record_ok req u /\ record_prices app_cfg req u.

(** Concrete adapter inputs. *)
Definition sample_gen_call : GenCall :=
  gen_call default_app_config (sample_request low_cost None) (build_system_prompt summarise)
           "gpt-4o-mini".

Definition sample_azure_provider : AzureOpenAIProvider :=
  make_azure_provider "https://example.openai.azure.com/" "key" "2024-02-15-preview".

(** An HTTP client that answers every request with the same response. *)
Definition reply_with (st : Z) (body : string) (j : Json + string)
    : string -> list (string * string) -> Json -> HttpResponse + string :=
  fun _ _ _ => inl {| status_code := st; body_text := body; body_json := j |}.

Definition null_content_data : Json :=
  JObj [("choices", JArr [JObj [("message", JObj [("role", JStr "assistant");
                                                 ("content", JNull)])]])]%string.

Definition no_choices_data : Json := JObj [("choices", JArr [])]%string.

(** A Bedrock runtime that answers every call with the same body. *)
Definition bedrock_replies (data : Json) : string -> Json -> Json + string :=
  fun _ _ => inl data.

Definition claude_data (t : string) : Json :=
  JObj [("content", JArr [JObj [("type", JStr "text"); ("text", JStr t)]]);
        ("completion", JStr "from completion")]%string.

Definition completion_data : Json :=
  JObj [("content", JArr []); ("completion", JStr "from completion")]%string.

Definition string_content_data : Json :=
  JObj [("content", JArr [JStr "not a dict"])]%string.

Definition data_placeholder (_ : Json) : string := "<data>"%string.

(** The outcome [call] sees from an adapter's [generate]. *)
Definition adapter_result (o : AdapterOutcome) : GenOutcome :=
  match o with
  | Raised m => GenFail m
  | Returned r =>
      match res_text r with
      | JStr t => GenOk t (res_latency_ms r)
      | v => GenOkValue v (res_latency_ms r)
      end
  end.

(** Azure answers HTTP 200 with a [null] message content; Bedrock raises. *)
Definition env_null_content : Env :=
  make_env (fun gc => adapter_result (azure_generate data_placeholder sample_azure_provider
                                        (reply_with 200 "" (inl null_content_data)) 95 gc))
           (always_fail "HTTP 503") no_fault.

(* ------------------------------------------------------------------ *)
(** ** Sanity checks *)

(** The doubles CPython reads for [1.5e-05] and [4e-08]. *)
Example f64_literals :
  f64_of_ratio false 15 (10 ^ 6) = S754_finite false 8854437155380585 (-69) /\
  f64_of_ratio false 4 (10 ^ 8) = S754_finite false 6044629098073146 (-77).
Proof. split; vm_compute; reflexivity. Qed.

Example est_tokens_4000 : est_tokens (repeat_string 4000 "a"%char) = 1000.
Proof. vm_compute. reflexivity. Qed.

Example run_low_cost_ok :
  option_map fallback_used
    (match fst (run_generation default_app_config sample_azure sample_bedrock
                 (sample_request low_cost None)
                 (make_env (always_ok "A") (always_ok "B") no_fault) "rid-1" initial_state) with
     | Ok r => Some r | Raise _ => None end) = Some false.
Proof. vm_compute. reflexivity. Qed.

(* ------------------------------------------------------------------ *)
(** ** Lemmas on the cost estimator *)

Lemma est_tokens_tokens_ref (s : string) : est_tokens s = tokens_ref s.
Proof.
  destruct s as [|c s']; [reflexivity|].
  unfold est_tokens, tokens_ref, py_int, py_len_div4; simpl String.length.
  simpl Qnum; simpl Qden.
  rewrite Z.quot_div_nonneg by lia. reflexivity.
Qed.






Lemma f64_zero_div_1000 : f64_div (f64_of_int 0) f64_1000 = S754_zero false.
Proof. vm_compute. reflexivity. Qed.

(* ------------------------------------------------------------------ *)
(** ** Claims on the routing policy and the cost estimator *)

(** C7 (as amended): with its float arithmetic in binary64, [estimate_cost]
    gives the reference token estimates [max(1, floor(len/4))] (0 for empty
    text) and their sum as the total, and as cost Python's [round(., 8)] of
    [(in/1000) * in_price + (out/1000) * out_price] evaluated in doubles;
    empty prompt and output with finite prices give zero tokens and cost 0,
    and a 4000-character prompt gives 1000 input tokens. *)
Theorem estimate_cost_f64_tokens_and_cost :
  forall (prov prompt_text output_text : string) (pin pout : spec_float),
    (let c := estimate_cost_f64 prov prompt_text output_text pin pout in
     f_input_tokens_est c = tokens_ref prompt_text /\
     f_output_tokens_est c = tokens_ref output_text /\
     f_total_tokens_est c = tokens_ref prompt_text + tokens_ref output_text /\
     f_cost_est_usd c =
       py_round8 (f64_add (f64_mul (f64_div (f64_of_int (tokens_ref prompt_text)) f64_1000) pin)
                          (f64_mul (f64_div (f64_of_int (tokens_ref output_text)) f64_1000) pout)))
    /\ (f64_is_finite pin = true -> f64_is_finite pout = true ->
        let c := estimate_cost_f64 prov EmptyString EmptyString pin pout in
        f_input_tokens_est c = 0 /\ f_output_tokens_est c = 0 /\
        f_total_tokens_est c = 0 /\ (f64_to_Q (f_cost_est_usd c) == 0)%Q)
    /\ (String.length prompt_text = 4000%nat ->
        f_input_tokens_est (estimate_cost_f64 prov prompt_text output_text pin pout) = 1000).
Proof.
  intros prov p o pin pout. split; [|split].
  - simpl. rewrite !est_tokens_tokens_ref. repeat split.
  - intros Hi Ho. unfold estimate_cost_f64. cbv zeta. simpl est_tokens.
    rewrite f64_zero_div_1000.
    destruct pin as [s1| s1| |s1 m1 e1]; try discriminate Hi;
    destruct pout as [s2| s2| |s2 m2 e2]; try discriminate Ho;
    destruct s1, s2; repeat split.
  - intros Hlen. simpl. rewrite est_tokens_tokens_ref. unfold tokens_ref.
    rewrite Hlen. reflexivity.
Qed.

(** C7 counterexample: a 12-character prompt is 3 tokens.  At an input
    price of [1.5e-05] per 1000 tokens the code computes
    [(3 / 1000.0) * 1.5e-05] in doubles, just below [4.5e-08], and
    [round(., 8)] gives [4e-08]; the exact cost at the same price, the
    reference's formula, rounds to [5e-08]. *)
Lemma estimate_cost_f64_differs_from_exact :
  let pin := f64_of_ratio false 15 (10 ^ 6) in
  let p := repeat_string 12 "a"%char in
  f_input_tokens_est (estimate_cost_f64 "azure" p EmptyString pin (S754_zero false)) = 3 /\
  f_cost_est_usd (estimate_cost_f64 "azure" p EmptyString pin (S754_zero false))
    = f64_of_ratio false 4 (10 ^ 8) /\
  (cost_est_usd (estimate_cost_ref p EmptyString (f64_to_Q pin) 0) == 5 # (10 ^ 8))%Q /\
  Qeq_bool (f64_to_Q (f_cost_est_usd
              (estimate_cost_f64 "azure" p EmptyString pin (S754_zero false))))
           (cost_est_usd (estimate_cost_ref p EmptyString (f64_to_Q pin) 0)) = false.
Proof. vm_compute. repeat split; reflexivity. Qed.




(** C9: the two selections of [choose_models] always name different
    providers. *)
Theorem choose_models_distinct_providers :
  forall (req : GenerateRequest) (az : AzureConfig) (bd : BedrockConfig),
    fst (fst (choose_models req az bd)) <> fst (snd (choose_models req az bd)).
Proof.
  intros [p t pr m tmp tp h md] az bd.
  destruct pr, h as [[|]|]; vm_compute; discriminate.
Qed.

(** C8: after the table lookup, a present hint naming a provider other than
    the table's primary swaps the pair; an absent hint or one naming the
    primary leaves it unchanged; so a hint naming the table's secondary makes
    it the returned primary. *)
Theorem choose_models_hint_swap :
  forall (req : GenerateRequest) (az : AzureConfig) (bd : BedrockConfig),
    let '(p, s) := routing_table (priority req) az bd in
    choose_models req az bd =
      match provider_hint req with
      | Some h => if String.eqb (hint_str h) (fst p) then (p, s) else (s, p)
      | None => (p, s)
      end
    /\ (forall h, provider_hint req = Some h -> hint_str h = fst s ->
        fst (fst (choose_models req az bd)) = hint_str h).
Proof.
  intros [p t pr m tmp tp h md] az bd.
  destruct pr, h as [[|]|]; simpl; split; try reflexivity;
    intros h' Hh Hs; inversion Hh; subst; simpl in Hs; try discriminate;
    reflexivity.
Qed.

Lemma choose_models_hint_swap_witness :
  fst (fst (choose_models (sample_request low_cost (Some hint_azure)) sample_azure sample_bedrock))
  = "azure"%string.
Proof.
  exact (proj2 (choose_models_hint_swap (sample_request low_cost (Some hint_azure))
                  sample_azure sample_bedrock) hint_azure eq_refl eq_refl).
Defined.


(* ------------------------------------------------------------------ *)
(** ** Lemmas on [run_generation] *)

(** [run_generation] as the sequence of its steps. *)
Lemma run_generation_steps app_cfg az bd req e rid s :
  run_generation app_cfg az bd req e rid s =
  let sp := build_system_prompt (task req) in
  let '(p, sc) := choose_models req az bd in
  match call e app_cfg req sp rid (fst p) (snd p) s with
  | (Ok pr, s1) => (Ok (response_of rid pr [pr] false), s1)
  | (Raise e1, s1) =>
      match log_attempt_failure e app_cfg req rid p e1 s1 with
      | (Raise x, s2) => (Raise x, s2)
      | (Ok _, s2) =>
          match call e app_cfg req sp rid (fst sc) (snd sc) s2 with
          | (Ok sr, s3) => (Ok (response_of rid sr [sr] true), s3)
          | (Raise e2, s3) =>
              match log_attempt_failure e app_cfg req rid sc e2 s3 with
              | (Raise x, s4) => (Raise x, s4)
              | (Ok _, s4) => (Raise (RuntimeError (both_failed_message e1 e2)), s4)
              end
          end
      end
  end.
Proof.
  unfold run_generation. destruct (choose_models req az bd) as [p sc].
  unfold bind, try_except, ret, raise.
  destruct (call _ _ _ _ _ (fst p) (snd p) s) as [[pr|e1] s1]; [reflexivity|].
  destruct (log_attempt_failure e app_cfg req rid p e1 s1) as [[[]|x] s2]; [|reflexivity].
  destruct (call _ _ _ _ _ (fst sc) (snd sc) s2) as [[sr|e2] s3]; [reflexivity|].
  destruct (log_attempt_failure e app_cfg req rid sc e2 s3) as [[[]|x] s4]; reflexivity.
Qed.

Lemma log_success_reliable e app_cfg req rid pn pm est lat s :
  reliable_logging app_cfg e ->
  fst (log_success e app_cfg req rid pn pm est lat s) = Ok tt.
Proof.
  intros [Hf|Hn]; unfold log_success.
  - rewrite Hf. reflexivity.
  - destruct (enable_request_logging app_cfg); [|reflexivity].
    unfold usage_log. rewrite Hn. reflexivity.
Qed.

Lemma est_tokens_value_str (t : string) : exists n, est_tokens_value (JStr t) = Some n.
Proof.
  unfold est_tokens_value. destruct (negb (py_truthy (JStr t))); eexists; reflexivity.
Qed.

(** With a reliable logger, an attempt raises exactly [attempt_error]. *)
Lemma call_reliable e app_cfg req sp rid pn pm s :
  reliable_logging app_cfg e ->
  match attempt_error e app_cfg req sp (pn, pm) with
  | Some err => exists s1, call e app_cfg req sp rid pn pm s = (Raise err, s1)
  | None => exists pr s1, call e app_cfg req sp rid pn pm s = (Ok pr, s1)
  end.
Proof.
  intros Hrel. unfold attempt_error, invoke, call. simpl fst; simpl snd.
  destruct (provider_route e app_cfg pn) as [[[gen ep] cin] cout].
  destruct (gen (gen_call app_cfg req sp pm)) as [out lat|v lat|m].
  - unfold bind.
    pose proof (log_success_reliable e app_cfg req rid pn pm
                  (estimate_cost ep (prompt req) out cin cout) lat s Hrel) as L.
    destruct (log_success e app_cfg req rid pn pm _ lat s) as [r1 s1].
    simpl in L. subst r1. eexists _, _. reflexivity.
  - unfold estimate_cost_value.
    destruct (est_tokens_value v) as [n|] eqn:Ev.
    + unfold bind.
      match goal with
      | |- context [log_success e app_cfg req rid pn pm ?est lat s] =>
          pose proof (log_success_reliable e app_cfg req rid pn pm est lat s Hrel) as L;
          destruct (log_success e app_cfg req rid pn pm est lat s) as [r1 s1]
      end.
      simpl in L. subst r1.
      destruct v as [| b | q | t | l | kvs];
        first [eexists; reflexivity | do 2 eexists; reflexivity].
    + destruct v as [| b | q | t | l | kvs];
        try (rewrite Ev; eexists; reflexivity); try (eexists; reflexivity).
      destruct (est_tokens_value_str t) as [n Hn]. congruence.
  - eexists. reflexivity.
Qed.

(** With a reliable logger, an adapter that returns a [str] gives a
    response carrying its text. *)
Lemma call_reliable_ok e app_cfg req sp rid pn pm s t l :
  reliable_logging app_cfg e -> invoke e app_cfg req sp (pn, pm) = GenOk t l ->
  exists pr s1, call e app_cfg req sp rid pn pm s = (Ok pr, s1) /\
    provider pr = pn /\ model pr = pm /\ text pr = t /\ latency_ms pr = l.
Proof.
  intros Hrel Hi. unfold invoke in Hi. simpl in Hi. unfold call.
  destruct (provider_route e app_cfg pn) as [[[gen ep] cin] cout].
  rewrite Hi. unfold bind.
  pose proof (log_success_reliable e app_cfg req rid pn pm
                (estimate_cost ep (prompt req) t cin cout) l s Hrel) as L.
  destruct (log_success e app_cfg req rid pn pm _ l s) as [r1 s1].
  simpl in L. subst r1. eexists _, _. repeat split.
Qed.

(** A response of [call] names the selection it was called on. *)
Lemma call_provider e app_cfg req sp rid pn pm s pr s1 :
  call e app_cfg req sp rid pn pm s = (Ok pr, s1) -> provider pr = pn /\ model pr = pm.
Proof.
  unfold call. destruct (provider_route e app_cfg pn) as [[[gen ep] cin] cout].
  destruct (gen (gen_call app_cfg req sp pm)) as [out lat|v lat|m].
  - unfold bind. destruct (log_success _ _ _ _ _ _ _ _ s) as [[u|x] s2];
      intros H; inversion H; split; reflexivity.
  - destruct (estimate_cost_value _ _ _ _ _) as [est|]; [|intros H; inversion H].
    unfold bind. destruct (log_success _ _ _ _ _ _ _ _ s) as [[u|x] s2];
      [|intros H; inversion H].
    destruct v; intros H; inversion H; split; reflexivity.
  - intros H. inversion H.
Qed.

Lemma log_attempt_failure_reliable e app_cfg req rid sel err s :
  reliable_logging app_cfg e ->
  fst (log_attempt_failure e app_cfg req rid sel err s) = Ok tt.
Proof.
  intros [Hf|Hn]; unfold log_attempt_failure.
  - rewrite Hf. reflexivity.
  - destruct (enable_request_logging app_cfg); [|reflexivity].
    unfold usage_log. rewrite Hn. reflexivity.
Qed.

Lemma attempt_error_ok e app_cfg req sp sel t l :
  invoke e app_cfg req sp sel = GenOk t l -> attempt_error e app_cfg req sp sel = None.
Proof. intros Hi. unfold attempt_error. rewrite Hi. reflexivity. Qed.

(* ------------------------------------------------------------------ *)
(** ** Claims on [run_generation] *)

(** With a reliable logger, the run raises only the both-failed error, and
    exactly when both attempts fail. *)
Lemma run_reliable_outcome :
  forall app_cfg az bd req e rid s,
    reliable_logging app_cfg e ->
    let sp := build_system_prompt (task req) in
    let '(p, sc) := choose_models req az bd in
    match fst (run_generation app_cfg az bd req e rid s) with
    | Raise err =>
        exists e1 e2,
          attempt_error e app_cfg req sp p = Some e1 /\
          attempt_error e app_cfg req sp sc = Some e2 /\
          err = RuntimeError ("Both providers failed. Primary: " ++ exn_str e1
                              ++ "; Secondary: " ++ exn_str e2)%string
    | Ok _ =>
        attempt_error e app_cfg req sp p = None \/ attempt_error e app_cfg req sp sc = None
    end.
Proof.
  intros app_cfg az bd req e rid s Hrel sp.
  rewrite run_generation_steps. cbv zeta. fold sp.
  destruct (choose_models req az bd) as [[pn pm] [sn sm]]. simpl fst; simpl snd.
  pose proof (call_reliable e app_cfg req sp rid pn pm s Hrel) as Cp.
  destruct (attempt_error e app_cfg req sp (pn, pm)) as [e1|] eqn:A1.
  - destruct Cp as (s1 & Hc). rewrite Hc.
    pose proof (log_attempt_failure_reliable e app_cfg req rid (pn, pm) e1 s1 Hrel) as L1.
    destruct (log_attempt_failure _ _ _ _ _ _ s1) as [r2 s2]; simpl in L1; subst r2.
    pose proof (call_reliable e app_cfg req sp rid sn sm s2 Hrel) as Cs.
    destruct (attempt_error e app_cfg req sp (sn, sm)) as [e2|] eqn:A2.
    + destruct Cs as (s3 & Hc2). rewrite Hc2.
      pose proof (log_attempt_failure_reliable e app_cfg req rid (sn, sm) e2 s3 Hrel) as L2.
      destruct (log_attempt_failure _ _ _ _ _ _ s3) as [r4 s4]; simpl in L2; subst r4.
      simpl. exists e1, e2. repeat split; reflexivity.
    + destruct Cs as (sr & s3 & Hc2). rewrite Hc2. simpl. right. reflexivity.
  - destruct Cp as (pr & s1 & Hc). rewrite Hc. simpl. left. reflexivity.
Qed.

(** C1 (as amended): when request logging is off or the usage logger never
    raises, [run_generation] raises only when both attempts fail, and then
    raises the both-failed [RuntimeError] whose message carries [str()] of
    the two attempts' exceptions; otherwise it returns a result.  An attempt
    fails when its adapter raises, or when the adapter returns a text that is
    not a [str] ([est_tokens] raises [TypeError] on a truthy number or
    boolean, [ProviderResponse] raises [ValidationError] on any other). *)
Theorem run_generation_raises_only_when_both_fail :
  forall app_cfg az bd req e rid s,
    reliable_logging app_cfg e ->
    let sp := build_system_prompt (task req) in
    let '(p, sc) := choose_models req az bd in
    match fst (run_generation app_cfg az bd req e rid s) with
    | Raise err =>
        exists e1 e2,
          attempt_error e app_cfg req sp p = Some e1 /\
          attempt_error e app_cfg req sp sc = Some e2 /\
          err = RuntimeError ("Both providers failed. Primary: " ++ exn_str e1
                              ++ "; Secondary: " ++ exn_str e2)%string
    | Ok _ =>
        attempt_error e app_cfg req sp p = None \/ attempt_error e app_cfg req sp sc = None
    end.
Proof. exact run_reliable_outcome. Qed.

(** The two ways a run returns a result. *)
Lemma run_fallback_cases :
  forall app_cfg az bd req e rid s,
    let sp := build_system_prompt (task req) in
    let '(p, sc) := choose_models req az bd in
    match run_generation app_cfg az bd req e rid s with
    | (Ok res, s') =>
        ((exists pr, fst (call e app_cfg req sp rid (fst p) (snd p) s) = Ok pr /\
                     fallback_used res = false /\ attempts res = [pr])
         \/ (exists e1 s1 s2 sr,
               call e app_cfg req sp rid (fst p) (snd p) s = (Raise e1, s1) /\
               log_attempt_failure e app_cfg req rid p e1 s1 = (Ok tt, s2) /\
               call e app_cfg req sp rid (fst sc) (snd sc) s2 = (Ok sr, s') /\
               fallback_used res = true /\ attempts res = [sr]))
        /\ (reliable_logging app_cfg e ->
            (fallback_used res = true <->
             (exists e1, attempt_error e app_cfg req sp p = Some e1) /\
             attempt_error e app_cfg req sp sc = None))
    | (Raise _, _) => True
    end.
Proof.
  intros app_cfg az bd req e rid s sp.
  rewrite run_generation_steps. cbv zeta. fold sp.
  destruct (choose_models req az bd) as [[pn pm] [sn sm]]. simpl fst; simpl snd.
  destruct (call e app_cfg req sp rid pn pm s) as [[pr|e1] s1] eqn:Hc1.
  - simpl. split.
    + left. exists pr. repeat split.
    + intros Hrel. split; [discriminate|]. intros [[e1 He1] _].
      pose proof (call_reliable e app_cfg req sp rid pn pm s Hrel) as Cp.
      rewrite He1 in Cp. destruct Cp as (s1' & Hc). congruence.
  - destruct (log_attempt_failure e app_cfg req rid (pn, pm) e1 s1) as [[[]|x] s2] eqn:L1;
      [|exact I].
    destruct (call e app_cfg req sp rid sn sm s2) as [[sr|e2] s3] eqn:Hc2.
    + simpl. split.
      * right. exists e1, s1, s2, sr. repeat split; assumption.
      * intros Hrel. split; [intros _|reflexivity]. split.
        -- pose proof (call_reliable e app_cfg req sp rid pn pm s Hrel) as Cp.
           destruct (attempt_error e app_cfg req sp (pn, pm)) as [e1'|].
           ++ exists e1'. reflexivity.
           ++ destruct Cp as (pr & s1' & Hc). congruence.
        -- pose proof (call_reliable e app_cfg req sp rid sn sm s2 Hrel) as Cs.
           destruct (attempt_error e app_cfg req sp (sn, sm)) as [e2|].
           ++ destruct Cs as (s3' & Hc). congruence.
           ++ reflexivity.
    + destruct (log_attempt_failure e app_cfg req rid (sn, sm) e2 s3) as [[[]|x] s4];
        exact I.
Qed.


(** C6 (as amended): every returned result has exactly one attempt, the
    response of the primary's [call] when [fallback_used] is [false], that of
    the secondary's [call] (made after the primary's raised) when it is
    [true]; when the primary's [call] raises and then the failure record or
    the secondary's [call] raises too, the run raises. *)
Theorem run_generation_single_attempt :
  forall app_cfg az bd req e rid s,
    let sp := build_system_prompt (task req) in
    let '(p, sc) := choose_models req az bd in
    (forall res s', run_generation app_cfg az bd req e rid s = (Ok res, s') ->
       exists a, attempts res = [a] /\
         (if fallback_used res
          then exists e1 s1 s2,
                 call e app_cfg req sp rid (fst p) (snd p) s = (Raise e1, s1) /\
                 log_attempt_failure e app_cfg req rid p e1 s1 = (Ok tt, s2) /\
                 call e app_cfg req sp rid (fst sc) (snd sc) s2 = (Ok a, s')
          else call e app_cfg req sp rid (fst p) (snd p) s = (Ok a, s')))
    /\ (forall e1 s1,
          call e app_cfg req sp rid (fst p) (snd p) s = (Raise e1, s1) ->
          (forall x s2, log_attempt_failure e app_cfg req rid p e1 s1 = (Raise x, s2) ->
             fst (run_generation app_cfg az bd req e rid s) = Raise x)
          /\ (forall s2 e2 s3,
                log_attempt_failure e app_cfg req rid p e1 s1 = (Ok tt, s2) ->
                call e app_cfg req sp rid (fst sc) (snd sc) s2 = (Raise e2, s3) ->
                exists x, fst (run_generation app_cfg az bd req e rid s) = Raise x)).
Proof.
  intros app_cfg az bd req e rid s sp.
  rewrite run_generation_steps. cbv zeta. fold sp.
  destruct (choose_models req az bd) as [p sc]. split.
  - destruct (call e app_cfg req sp rid (fst p) (snd p) s) as [[pr|e1] s1] eqn:Hc1.
    + intros res s' H. inversion H; subst. exists pr. split; reflexivity.
    + destruct (log_attempt_failure e app_cfg req rid p e1 s1) as [[[]|x] s2] eqn:L1;
        [|intros res s' H; discriminate H].
      destruct (call e app_cfg req sp rid (fst sc) (snd sc) s2) as [[sr|e2] s3] eqn:Hc2.
      * intros res s' H. inversion H; subst. exists sr. split; [reflexivity|].
        simpl. exists e1, s1, s2. repeat split; assumption.
      * destruct (log_attempt_failure e app_cfg req rid sc e2 s3) as [[[]|x] s4];
          intros res s' H; discriminate H.
  - intros e1 s1 Hc1. rewrite Hc1. split.
    + intros x s2 L1. rewrite L1. reflexivity.
    + intros s2 e2 s3 L1 Hc2. rewrite L1, Hc2.
      destruct (log_attempt_failure e app_cfg req rid sc e2 s3) as [[[]|x] s4];
        eexists; reflexivity.
Qed.











Lemma log_attempt_failure_disabled e app_cfg req rid sel err s :
  enable_request_logging app_cfg = false ->
  log_attempt_failure e app_cfg req rid sel err s = (Ok tt, s).
Proof. intros Hf. unfold log_attempt_failure. rewrite Hf. reflexivity. Qed.







Lemma run_generation_request_id app_cfg az bd req e rid s res :
  fst (run_generation app_cfg az bd req e rid s) = Ok res -> request_id res = rid.
Proof.
  rewrite run_generation_steps. cbv zeta.
  destruct (choose_models req az bd) as [p sc].
  destruct (call _ _ _ _ rid (fst p) (snd p) s) as [[pr|e1] s1].
  { intros H; inversion H; reflexivity. }
  destruct (log_attempt_failure e app_cfg req rid p e1 s1) as [[u|x] s2]; [|discriminate].
  destruct (call _ _ _ _ rid (fst sc) (snd sc) s2) as [[sr|e2] s3].
  { intros H; inversion H; reflexivity. }
  destruct (log_attempt_failure e app_cfg req rid sc e2 s3) as [[u'|x] s4]; discriminate.
Qed.

Lemma invoke_with_log_fault e lf app_cfg req sp sel :
  invoke (with_log_fault e lf) app_cfg req sp sel = invoke e app_cfg req sp sel.
Proof.
  unfold invoke, provider_route. destruct (String.eqb (fst sel) "azure"); reflexivity.
Qed.

Lemma call_with_log_fault_disabled e lf app_cfg req sp rid pn pm s :
  enable_request_logging app_cfg = false ->
  call (with_log_fault e lf) app_cfg req sp rid pn pm s = call e app_cfg req sp rid pn pm s.
Proof.
  intros Hf. unfold call, provider_route, log_success. rewrite Hf.
  destruct (String.eqb pn "azure"); reflexivity.
Qed.

(** An adapter that returns a [str] whose success record raises makes
    [call] raise the logger's exception. *)
Lemma call_log_fault e app_cfg req sp rid pn pm s t l m :
  enable_request_logging app_cfg = true ->
  invoke e app_cfg req sp (pn, pm) = GenOk t l ->
  log_fault e (log_calls s) = Some m ->
  fst (call e app_cfg req sp rid pn pm s) = Raise (SinkError m).
Proof.
  intros Ht Hi Hm. unfold invoke in Hi. simpl in Hi. unfold call.
  destruct (provider_route e app_cfg pn) as [[[gen ep] cin] cout].
  rewrite Hi. cbv zeta. unfold bind, log_success, usage_log. rewrite Ht, Hm. reflexivity.
Qed.


(** C2 (as amended): logging failures are not isolated.  With request
    logging off the logger is never called, so the run does not depend on it;
    with it on, when the primary invocation succeeds but its success record
    raises, the run no longer returns the fault-free result (the primary's,
    with [fallback_used = false]): it raises or returns a fallback result. *)
Theorem run_generation_logging_not_isolated :
  forall app_cfg az bd req e rid s,
    (enable_request_logging app_cfg = false -> forall lf,
       run_generation app_cfg az bd req (with_log_fault e lf) rid s
       = run_generation app_cfg az bd req e rid s)
    /\ (enable_request_logging app_cfg = true ->
        let sp := build_system_prompt (task req) in
        let '(p, sc) := choose_models req az bd in
        forall t l m,
          invoke e app_cfg req sp p = GenOk t l ->
          log_fault e (log_calls s) = Some m ->
          (exists r0, fst (run_generation app_cfg az bd req (with_log_fault e no_fault) rid s)
                      = Ok r0 /\ fallback_used r0 = false)
          /\ (forall r, fst (run_generation app_cfg az bd req e rid s) = Ok r ->
                        fallback_used r = true)).
Proof.
  intros app_cfg az bd req e rid s. split.
  - intros Hf lf. rewrite !run_generation_steps. cbv zeta.
    destruct (choose_models req az bd) as [p sc].
    rewrite !call_with_log_fault_disabled by exact Hf.
    destruct (call e app_cfg req _ rid (fst p) (snd p) s) as [[pr|e1] s1]; [reflexivity|].
    rewrite !log_attempt_failure_disabled by exact Hf.
    rewrite !call_with_log_fault_disabled by exact Hf.
    destruct (call e app_cfg req _ rid (fst sc) (snd sc) s1) as [[sr|e2] s3]; [reflexivity|].
    rewrite !log_attempt_failure_disabled by exact Hf. reflexivity.
  - intros Ht sp.
    pose proof (run_fallback_cases app_cfg az bd req (with_log_fault e no_fault) rid s)
      as Clean.
    cbv zeta in Clean. fold sp in Clean.
    destruct (choose_models req az bd) as [p sc] eqn:Hch.
    intros t l m Hi Hm.
    assert (Hi' : attempt_error (with_log_fault e no_fault) app_cfg req sp p = None).
    { apply (attempt_error_ok _ _ _ _ _ t l). rewrite invoke_with_log_fault. exact Hi. }
    split.
    + assert (Rel : reliable_logging app_cfg (with_log_fault e no_fault))
        by (right; reflexivity).
      destruct (run_generation app_cfg az bd req (with_log_fault e no_fault) rid s)
        as [[r0|x] s'] eqn:Hr.
      * exists r0. split; [reflexivity|].
        destruct Clean as [_ Iff]. specialize (Iff Rel).
        destruct (fallback_used r0) eqn:Fb; [|reflexivity].
        destruct (proj1 Iff eq_refl) as [[e1 He1] _]. congruence.
      * exfalso.
        pose proof (run_reliable_outcome app_cfg az bd req
                      (with_log_fault e no_fault) rid s Rel) as B.
        cbv zeta in B. fold sp in B. rewrite Hch, Hr in B. simpl in B.
        destruct B as (e1 & e2 & He1 & _). congruence.
    + intros r. rewrite run_generation_steps. cbv zeta. fold sp. rewrite Hch.
      destruct p as [pn pm]. simpl fst; simpl snd.
      pose proof (call_log_fault e app_cfg req sp rid pn pm s t l m Ht Hi Hm) as Cf.
      destruct (call e app_cfg req sp rid pn pm s) as [[pr|e1] s1];
        [simpl in Cf; discriminate Cf|].
      destruct (log_attempt_failure e app_cfg req rid (pn, pm) e1 s1) as [[u|x] s2];
        [|intros H; simpl in H; discriminate H].
      destruct (call e app_cfg req sp rid (fst sc) (snd sc) s2) as [[sr|e2] s3].
      * intros H. inversion H. reflexivity.
      * destruct (log_attempt_failure e app_cfg req rid sc e2 s3) as [[u'|x] s4];
          intros H; simpl in H; discriminate H.
Qed.

(* ------------------------------------------------------------------ *)
(** ** Concrete runs: witnesses and counterexamples *)

Example both_fail_message :
  fst (run_generation default_app_config sample_azure sample_bedrock
         (sample_request low_cost None) env_both_fail "rid-3" initial_state)
  = Raise (RuntimeError "Both providers failed. Primary: HTTP 503; Secondary: read timeout").
Proof. vm_compute. reflexivity. Qed.

Lemma run_generation_raises_only_when_both_fail_witness :
  reliable_logging default_app_config env_both_fail /\
  (let sp := build_system_prompt (task (sample_request low_cost None)) in
   let '(p, sc) := choose_models (sample_request low_cost None) sample_azure sample_bedrock in
   match fst (run_generation default_app_config sample_azure sample_bedrock
                (sample_request low_cost None) env_both_fail "rid-3" initial_state) with
   | Raise err =>
       exists e1 e2,
         attempt_error env_both_fail default_app_config (sample_request low_cost None) sp p
           = Some e1 /\
         attempt_error env_both_fail default_app_config (sample_request low_cost None) sp sc
           = Some e2 /\
         err = RuntimeError ("Both providers failed. Primary: " ++ exn_str e1
                             ++ "; Secondary: " ++ exn_str e2)%string
   | Ok _ =>
       attempt_error env_both_fail default_app_config (sample_request low_cost None) sp p
         = None \/
       attempt_error env_both_fail default_app_config (sample_request low_cost None) sp sc
         = None
   end).
Proof.
  assert (Rel : reliable_logging default_app_config env_both_fail)
    by (right; intros n; reflexivity).
  split; [exact Rel|].
  exact (run_generation_raises_only_when_both_fail default_app_config sample_azure
           sample_bedrock (sample_request low_cost None) env_both_fail "rid-3"
           initial_state Rel).
Defined.

(** C1 counterexample: the primary invocation succeeds, yet the run raises
    the logger's exception, not a both-failed error. *)
Lemma run_generation_raises_on_sink_failure :
  invoke env_sink_down default_app_config (sample_request low_cost None)
    (build_system_prompt summarise) ("bedrock", "claude-haiku")%string
    = GenOk "bedrock answer" 120 /\
  fst (run_generation default_app_config sample_azure sample_bedrock
         (sample_request low_cost None) env_sink_down "rid-4" initial_state)
    = Raise (SinkError "database is locked").
Proof. split; vm_compute; reflexivity. Qed.

(** The Azure adapter returns [None] as the text when the reply's
    [message.content] is [null]; the attempt then fails in
    [ProviderResponse], after its success record, and the run raises the
    both-failed error although the Azure call answered. *)
Example null_content_run :
  invoke env_null_content default_app_config (sample_request low_latency None)
    (build_system_prompt summarise) ("azure", "gpt-4o-mini-fast")%string
    = GenOkValue JNull 95 /\
  attempt_error env_null_content default_app_config (sample_request low_latency None)
    (build_system_prompt summarise) ("azure", "gpt-4o-mini-fast")%string
    = Some (ValidationError (sample_validation_error JNull)) /\
  fst (run_generation default_app_config sample_azure sample_bedrock
         (sample_request low_latency None) env_null_content "rid-8" initial_state)
    = Raise (RuntimeError ("Both providers failed. Primary: "
                           ++ sample_validation_error JNull ++ "; Secondary: HTTP 503")).
Proof. split; [|split]; vm_compute; reflexivity. Qed.

(** C2 counterexample: one failed write of the primary's success record
    turns the primary's result into a fallback to Azure. *)
Lemma run_generation_sink_glitch_changes_result :
  fst (run_generation default_app_config sample_azure sample_bedrock
         (sample_request low_cost None) (with_log_fault env_sink_glitch no_fault)
         "rid-5" initial_state)
    = Ok {| request_id := "rid-5"; chosen_provider := "bedrock";
            chosen_model := "claude-haiku"; resp_text := "bedrock answer";
            resp_latency_ms := 120; fallback_used := false;
            attempts := [{| provider := "bedrock"; model := "claude-haiku";
                            text := "bedrock answer"; latency_ms := 120;
                            usage := estimate_cost "bedrock" "Summarise the quarterly report"
                                       "bedrock answer" (25 # 100000) (125 # 100000) |}] |} /\
  option_map (fun r => (chosen_provider r, fallback_used r))
    (match fst (run_generation default_app_config sample_azure sample_bedrock
                  (sample_request low_cost None) env_sink_glitch "rid-5" initial_state) with
     | Ok r => Some r | Raise _ => None end)
    = Some ("azure"%string, true).
Proof. split; vm_compute; reflexivity. Qed.


(** C6 counterexample: the primary fails, the secondary is attempted and
    succeeds, and the result lists a single attempt. *)
Lemma run_generation_fallback_one_attempt :
  invoke env_primary_fails default_app_config (sample_request low_cost None)
    (build_system_prompt summarise) ("bedrock", "claude-haiku")%string = GenFail "HTTP 500" /\
  option_map (fun r => (fallback_used r, length (attempts r)))
    (match fst (run_generation default_app_config sample_azure sample_bedrock
                  (sample_request low_cost None) env_primary_fails "rid-7" initial_state) with
     | Ok r => Some r | Raise _ => None end)
    = Some (true, 1%nat).
Proof. split; vm_compute; reflexivity. Qed.

(* ------------------------------------------------------------------ *)
(** ** Further properties: configuration *)

Lemma env_str_required environ n v :
  env_str environ n None true = CfgOk v -> environ n = Some v /\ py_strip v <> EmptyString.
Proof.
  unfold env_str, get_env. destruct (environ n) as [x|]; simpl; [|discriminate].
  destruct (String.eqb (py_strip x) "") eqn:E; simpl; [discriminate|].
  intros H; inversion H; subst. split; [reflexivity|]. apply String.eqb_neq. exact E.
Qed.


Lemma env_str_default environ n d :
  env_str environ n (Some d) false
  = CfgOk (match environ n with Some x => x | None => d end).
Proof. unfold env_str, get_env. destruct (environ n); reflexivity. Qed.

Ltac cfg_split H :=
  repeat match type of H with
         | context [cfg_bind ?m _] =>
             let E := fresh "E" in destruct m eqn:E; simpl in H
         end.

(** After [load_config] succeeds, every variable it requires is set to a
    non-blank value, and each Azure and Bedrock field holds its variable's
    value unchanged. *)
Theorem load_config_required_fields :
  forall environ py_float app az bd,
    load_config environ py_float = CfgOk (app, az, bd) ->
    Forall (fun n => exists x, environ n = Some x /\ py_strip x <> EmptyString) required_vars /\
    environ "AZURE_OPENAI_ENDPOINT"%string = Some (endpoint az) /\
    environ "AZURE_OPENAI_API_KEY"%string = Some (api_key az) /\
    environ "AZURE_DEPLOYMENT_LOW_COST"%string = Some (deployment_low_cost az) /\
    environ "AZURE_DEPLOYMENT_HIGH_QUALITY"%string = Some (deployment_high_quality az) /\
    environ "AZURE_DEPLOYMENT_LOW_LATENCY"%string = Some (deployment_low_latency az) /\
    environ "AWS_REGION"%string = Some (region bd) /\
    environ "BEDROCK_MODEL_LOW_COST"%string = Some (model_low_cost bd) /\
    environ "BEDROCK_MODEL_HIGH_QUALITY"%string = Some (model_high_quality bd) /\
    environ "BEDROCK_MODEL_LOW_LATENCY"%string = Some (model_low_latency bd).
Proof.
  intros environ py_float app az bd H. unfold load_config in H.
  rewrite !env_str_default in H. simpl in H.
  cfg_split H; try discriminate H.
  inversion H; subst; clear H. simpl.
  repeat match goal with
         | E : env_str _ _ None true = CfgOk _ |- _ => apply env_str_required in E; destruct E
         end.
  repeat split; try assumption;
    repeat constructor; eexists; split; eassumption.
Qed.



Lemma env_str_required_ok environ n x :
  environ n = Some x -> py_strip x <> EmptyString -> env_str environ n None true = CfgOk x.
Proof.
  intros H1 H2. unfold env_str, get_env. rewrite H1. simpl.
  apply String.eqb_neq in H2. rewrite H2. reflexivity.
Qed.

(** With the [AppConfig] variables unset and every required variable set,
    [load_config] succeeds and its [AppConfig] is the defaults written in
    the code (Azure cheaper than Bedrock, logging on, 20 s timeout). *)
Theorem load_config_defaults :
  forall environ py_float,
    (forall n, In n app_config_vars -> environ n = None) ->
    py_float "20"%string = CfgOk (20 # 1) ->
    py_float "0.00015"%string = CfgOk (15 # 100000) ->
    py_float "0.00060"%string = CfgOk (60 # 100000) ->
    py_float "0.00025"%string = CfgOk (25 # 100000) ->
    py_float "0.00125"%string = CfgOk (125 # 100000) ->
    Forall (fun n => exists x, environ n = Some x /\ py_strip x <> EmptyString) required_vars ->
    exists az bd, load_config environ py_float = CfgOk (default_app_config, az, bd).
Proof.
  intros environ py_float Hopt F1 F2 F3 F4 F5 Hreq.
  unfold load_config. rewrite !env_str_default.
  rewrite !Hopt by (simpl; tauto). simpl.
  rewrite F1, F2, F3, F4, F5. simpl.
  unfold required_vars in Hreq.
  repeat match type of Hreq with
         | Forall _ (?n :: _) =>
             let A := fresh "A" in
             inversion Hreq as [|? ? A Hreq']; subst; clear Hreq; rename Hreq' into Hreq;
             destruct A as (? & ? & ?)
         end.
  repeat (erewrite env_str_required_ok by eassumption; simpl).
  eexists _, _. reflexivity.
Qed.

Lemma load_config_defaults_witness :
  exists az bd, load_config sample_environ default_literal_float
                = CfgOk (default_app_config, az, bd).
Proof.
  apply load_config_defaults; try reflexivity.
  - intros n Hn. simpl in Hn.
    repeat (destruct Hn as [<-|Hn]; [reflexivity|]). destruct Hn.
  - repeat constructor; eexists; split; reflexivity || (vm_compute; discriminate).
Defined.

Lemma load_config_required_fields_witness :
  exists app az bd,
    load_config sample_environ default_literal_float = CfgOk (app, az, bd) /\
    sample_environ "AZURE_OPENAI_ENDPOINT"%string = Some (endpoint az).
Proof.
  destruct (load_config sample_environ default_literal_float) as [[[app az] bd]|m] eqn:E;
    [|vm_compute in E; discriminate E].
  exists app, az, bd. split; [reflexivity|].
  pose proof (proj1 (proj2 (load_config_required_fields _ _ _ _ _ E))) as H.
  exact H.
Defined.

(* ------------------------------------------------------------------ *)
(** ** Further properties: the Azure adapter *)

Lemma rstrip_by_split p s :
  exists t, s = (rstrip_by p s ++ t)%string /\
            forall c, In c (list_ascii_of_string t) -> p c = true.
Proof.
  induction s as [|a s IH]; simpl.
  - exists EmptyString. split; [reflexivity|]. simpl. tauto.
  - destruct IH as (t & Ht & Hp).
    destruct (rstrip_by p s) as [|x r] eqn:E.
    + simpl in Ht. subst t. destruct (p a) eqn:Pa.
      * exists (String a s). split; [reflexivity|].
        simpl. intros c [<-|Hc]; [exact Pa|exact (Hp c Hc)].
      * exists s. split; [reflexivity|exact Hp].
    + exists t. split; [|exact Hp]. simpl. simpl in Ht. rewrite Ht at 1. reflexivity.
Qed.

Lemma rstrip_by_last p s : forall pre c,
  rstrip_by p s = (pre ++ String c EmptyString)%string -> p c = false.
Proof.
  induction s as [|a s IH]; intros pre c H; simpl in H.
  - destruct pre; discriminate.
  - destruct (rstrip_by p s) as [|x r] eqn:E.
    + destruct (p a) eqn:Pa.
      * destruct pre; discriminate.
      * destruct pre as [|b pre]; simpl in H.
        -- injection H as ->. exact Pa.
        -- injection H as _ H. destruct pre; discriminate.
    + destruct pre as [|b pre]; simpl in H.
      * injection H as _ H. discriminate.
      * injection H as _ H. apply (IH pre). first [exact H | rewrite E; exact H].
Qed.

Lemma rstrip_by_snoc p s c :
  p c = true -> rstrip_by p (s ++ String c EmptyString)%string = rstrip_by p s.
Proof.
  intros Hc. induction s as [|a s IH]; simpl.
  - rewrite Hc. reflexivity.
  - rewrite IH. reflexivity.
Qed.

(** The stored endpoint is the given one without its trailing slashes: it
    never ends in a slash, and a trailing slash on the configured endpoint
    does not change any request URL. *)
Theorem make_azure_provider_endpoint :
  forall ep key ver,
    let e := az_endpoint (make_azure_provider ep key ver) in
    (exists t, ep = (e ++ t)%string /\ forall c, In c (list_ascii_of_string t) -> c = "/"%char)
    /\ (forall pre, e <> (pre ++ "/")%string)
    /\ (forall m, azure_url (make_azure_provider (ep ++ "/") key ver) m
                  = azure_url (make_azure_provider ep key ver) m).
Proof.
  intros ep key ver e. unfold e, make_azure_provider. simpl az_endpoint.
  split; [|split].
  - destruct (rstrip_by_split (fun c => Ascii.eqb c "/"%char) ep) as (t & Ht & Hp).
    exists t. split; [exact Ht|]. intros c Hc. apply Ascii.eqb_eq. exact (Hp c Hc).
  - intros pre H. apply rstrip_by_last in H. discriminate H.
  - intros m. unfold azure_url. simpl.
    rewrite rstrip_by_snoc by reflexivity. reflexivity.
Qed.

(** An error status (400 or more) makes [generate] raise
    ["Azure OpenAI error <status>: <body>"], whatever the body is: the body
    is not parsed. *)
Theorem azure_generate_http_error :
  forall json_str self post latency_ms gc resp,
    post (azure_url self (gc_model_or_deployment gc)) (azure_headers self) (azure_payload gc)
      = inl resp ->
    400 <= status_code resp ->
    azure_generate json_str self post latency_ms gc
      = Raised ("Azure OpenAI error " ++ z_str (status_code resp) ++ ": " ++ body_text resp)%string.
Proof.
  intros json_str self post latency_ms gc resp Hp Hs.
  unfold azure_generate. rewrite Hp. apply Z.leb_le in Hs. rewrite Hs. reflexivity.
Qed.

Lemma azure_generate_http_error_witness :
  azure_generate data_placeholder sample_azure_provider
    (reply_with 429 "Too Many Requests" (inr "Expecting value"%string)) 35 sample_gen_call
  = Raised "Azure OpenAI error 429: Too Many Requests"%string.
Proof.
  refine (eq_trans (azure_generate_http_error _ _ _ _ _
            {| status_code := 429; body_text := "Too Many Requests";
               body_json := inr "Expecting value"%string |} eq_refl _) _).
  - vm_compute. discriminate.
  - vm_compute. reflexivity.
Defined.

(** When [generate] returns, the status was below 400, the body parsed to
    [data], and the result's text is [data["choices"][0]["message"]["content"]]
    unchanged (it is not checked to be a string: [null] is returned as is),
    with provider ["azure"], the requested deployment and the measured
    latency. *)
Theorem azure_generate_returned :
  forall json_str self post latency_ms gc r,
    azure_generate json_str self post latency_ms gc = Returned r ->
    exists resp data,
      post (azure_url self (gc_model_or_deployment gc)) (azure_headers self) (azure_payload gc)
        = inl resp /\
      status_code resp < 400 /\ body_json resp = inl data /\
      azure_content data = Some (res_text r) /\
      res_provider r = "azure"%string /\ res_model r = gc_model_or_deployment gc /\
      res_latency_ms r = latency_ms.
Proof.
  intros json_str self post latency_ms gc r. unfold azure_generate.
  destruct (post _ _ _) as [resp|msg]; [|discriminate].
  destruct (400 <=? status_code resp) eqn:S; [discriminate|].
  destruct (body_json resp) as [data|msg] eqn:B; [|discriminate].
  destruct (azure_content data) as [t|] eqn:C; [|discriminate].
  intros H. inversion H; subst; clear H. apply Z.leb_gt in S.
  exists resp, data. repeat split; assumption.
Qed.

Lemma azure_generate_returned_witness :
  exists resp data,
    reply_with 200 "{...}" (inl null_content_data)
      (azure_url sample_azure_provider (gc_model_or_deployment sample_gen_call))
      (azure_headers sample_azure_provider) (azure_payload sample_gen_call) = inl resp /\
    status_code resp < 400 /\ body_json resp = inl data /\
    azure_content data = Some JNull /\
    "azure"%string = "azure"%string /\
    "gpt-4o-mini"%string = gc_model_or_deployment sample_gen_call /\
    35 = 35.
Proof.
  exact (azure_generate_returned data_placeholder sample_azure_provider
           (reply_with 200 "{...}" (inl null_content_data)) 35 sample_gen_call
           {| res_provider := "azure"; res_model := "gpt-4o-mini"; res_text := JNull;
              res_latency_ms := 35 |} ltac:(vm_compute; reflexivity)).
Defined.

(** A body without [choices[0].message.content] (not an object, no
    [choices], an empty [choices] list, ...) makes [generate] raise
    ["Unexpected Azure response format: <data>"]. *)
Theorem azure_generate_format_error :
  forall json_str self post latency_ms gc resp data,
    post (azure_url self (gc_model_or_deployment gc)) (azure_headers self) (azure_payload gc)
      = inl resp ->
    status_code resp < 400 -> body_json resp = inl data -> azure_content data = None ->
    azure_generate json_str self post latency_ms gc
      = Raised ("Unexpected Azure response format: " ++ json_str data)%string.
Proof.
  intros json_str self post latency_ms gc resp data Hp Hs Hb Hc.
  unfold azure_generate. rewrite Hp. apply Z.leb_gt in Hs. rewrite Hs, Hb, Hc. reflexivity.
Qed.

Lemma azure_generate_format_error_witness :
  azure_generate data_placeholder sample_azure_provider
    (reply_with 200 "{...}" (inl no_choices_data)) 35 sample_gen_call
  = Raised "Unexpected Azure response format: <data>"%string.
Proof.
  exact (azure_generate_format_error data_placeholder sample_azure_provider
           (reply_with 200 "{...}" (inl no_choices_data)) 35 sample_gen_call
           {| status_code := 200; body_text := "{...}"; body_json := inl no_choices_data |}
           no_choices_data eq_refl ltac:(vm_compute; reflexivity) eq_refl eq_refl).
Defined.

(* ------------------------------------------------------------------ *)
(** ** Further properties: the Bedrock adapter *)

Lemma py_strip_empty : py_strip EmptyString = EmptyString.
Proof. reflexivity. Qed.

(** When [generate] returns, its text is a string that is not blank after
    [strip()] (returned unstripped), the provider is ["bedrock"], the model
    the requested one, and the latency the measured one. *)
Theorem bedrock_generate_returned :
  forall json_str invoke_model latency_ms gc r,
    bedrock_generate json_str invoke_model latency_ms gc = Returned r ->
    res_provider r = "bedrock"%string /\ res_model r = gc_model_or_deployment gc /\
    res_latency_ms r = latency_ms /\
    exists data s,
      invoke_model (gc_model_or_deployment gc) (bedrock_body gc) = inl data /\
      bedrock_extract data = Some (JStr s) /\ res_text r = JStr s /\
      py_strip s <> EmptyString.
Proof.
  intros json_str invoke_model latency_ms gc r. unfold bedrock_generate.
  destruct (invoke_model _ _) as [data|msg]; [|discriminate].
  destruct (bedrock_extract data) as [t|] eqn:X; [|discriminate].
  destruct t as [| | |s| |]; try discriminate.
  destruct (String.eqb (py_strip s) "") eqn:B; [discriminate|].
  intros H; inversion H; subst; clear H.
  repeat split. exists data, s. repeat split; try assumption.
  apply String.eqb_neq. exact B.
Qed.

Lemma bedrock_generate_returned_witness :
  "bedrock"%string = "bedrock"%string /\
  "claude-haiku"%string = gc_model_or_deployment
                            (gen_call default_app_config (sample_request low_cost None)
                                      (build_system_prompt summarise) "claude-haiku") /\
  35 = 35 /\
  exists data s,
    bedrock_replies (claude_data " Hello ") "claude-haiku"%string
      (bedrock_body (gen_call default_app_config (sample_request low_cost None)
                              (build_system_prompt summarise) "claude-haiku")) = inl data /\
    bedrock_extract data = Some (JStr s) /\ JStr " Hello " = JStr s /\
    py_strip s <> EmptyString.
Proof.
  exact (bedrock_generate_returned data_placeholder (bedrock_replies (claude_data " Hello "))
           35 (gen_call default_app_config (sample_request low_cost None)
                        (build_system_prompt summarise) "claude-haiku")
           {| res_provider := "bedrock"; res_model := "claude-haiku";
              res_text := JStr " Hello "; res_latency_ms := 35 |}
           ltac:(vm_compute; reflexivity)).
Defined.

(** The text of [content[0]] wins: when it is a non-blank string, [generate]
    returns it (and [completion] is not read). *)
Theorem bedrock_generate_content_text :
  forall json_str invoke_model latency_ms gc kvs c0 rest s,
    invoke_model (gc_model_or_deployment gc) (bedrock_body gc) = inl (JObj kvs) ->
    obj_lookup kvs "content" = Some (JArr (JObj c0 :: rest)) ->
    obj_lookup c0 "text" = Some (JStr s) ->
    py_strip s <> EmptyString ->
    bedrock_generate json_str invoke_model latency_ms gc
      = Returned {| res_provider := "bedrock"; res_model := gc_model_or_deployment gc;
                    res_text := JStr s; res_latency_ms := latency_ms |}.
Proof.
  intros json_str invoke_model latency_ms gc kvs c0 rest s Hi Hc Ht Hs.
  unfold bedrock_generate, bedrock_extract, obj_get. rewrite Hi, Hc. simpl. rewrite Ht.
  destruct s as [|a s']; [contradiction|]. simpl.
  apply String.eqb_neq in Hs. rewrite Hs. reflexivity.
Qed.

Lemma bedrock_generate_content_text_witness :
  bedrock_generate data_placeholder (bedrock_replies (claude_data "Hello")) 35 sample_gen_call
    = Returned {| res_provider := "bedrock"; res_model := "gpt-4o-mini";
                  res_text := JStr "Hello"; res_latency_ms := 35 |}.
Proof.
  exact (bedrock_generate_content_text data_placeholder (bedrock_replies (claude_data "Hello"))
           35 sample_gen_call _ _ [] "Hello" eq_refl eq_refl eq_refl
           ltac:(vm_compute; discriminate)).
Defined.

(** [completion] is the fallback: when [content] is missing, an empty list,
    or a list whose first item has no truthy [text], and [completion] is a
    non-blank string, [generate] returns [completion]. *)
Theorem bedrock_generate_completion_fallback :
  forall json_str invoke_model latency_ms gc kvs s,
    invoke_model (gc_model_or_deployment gc) (bedrock_body gc) = inl (JObj kvs) ->
    (obj_lookup kvs "content" = None \/ obj_lookup kvs "content" = Some (JArr []) \/
     exists c0 rest, obj_lookup kvs "content" = Some (JArr (JObj c0 :: rest)) /\
                     py_truthy (obj_get c0 "text" (JStr "")) = false) ->
    obj_lookup kvs "completion" = Some (JStr s) ->
    py_strip s <> EmptyString ->
    bedrock_generate json_str invoke_model latency_ms gc
      = Returned {| res_provider := "bedrock"; res_model := gc_model_or_deployment gc;
                    res_text := JStr s; res_latency_ms := latency_ms |}.
Proof.
  intros json_str invoke_model latency_ms gc kvs s Hi Hc Hm Hs.
  unfold bedrock_generate, bedrock_extract. rewrite Hi.
  assert (Hx : obj_get kvs "completion" (JStr "") = JStr s) by (unfold obj_get; rewrite Hm; reflexivity).
  apply String.eqb_neq in Hs.
  destruct Hc as [Hc|[Hc|(c0 & rest & Hc & Ht)]].
  - assert (Hg : obj_get kvs "content" (JArr []) = JArr []) by (unfold obj_get; rewrite Hc; reflexivity).
    rewrite Hg. simpl. rewrite Hx, Hs. reflexivity.
  - assert (Hg : obj_get kvs "content" (JArr []) = JArr []) by (unfold obj_get; rewrite Hc; reflexivity).
    rewrite Hg. simpl. rewrite Hx, Hs. reflexivity.
  - assert (Hg : obj_get kvs "content" (JArr []) = JArr (JObj c0 :: rest))
      by (unfold obj_get; rewrite Hc; reflexivity).
    rewrite Hg. simpl. rewrite Ht, Hx, Hs. reflexivity.
Qed.

Lemma bedrock_generate_completion_fallback_witness :
  bedrock_generate data_placeholder (bedrock_replies completion_data) 35 sample_gen_call
    = Returned {| res_provider := "bedrock"; res_model := "gpt-4o-mini";
                  res_text := JStr "from completion"; res_latency_ms := 35 |}.
Proof.
  exact (bedrock_generate_completion_fallback data_placeholder (bedrock_replies completion_data)
           35 sample_gen_call _ "from completion" eq_refl
           (or_intror (or_introl eq_refl)) eq_refl ltac:(vm_compute; discriminate)).
Defined.

(** A whitespace-only [text] in [content[0]] is truthy, so [completion] is
    not consulted and [generate] raises ["Empty Bedrock completion. Raw:
    <data>"] even when [completion] holds text. *)
Theorem bedrock_generate_blank_text :
  forall json_str invoke_model latency_ms gc kvs c0 rest s,
    invoke_model (gc_model_or_deployment gc) (bedrock_body gc) = inl (JObj kvs) ->
    obj_lookup kvs "content" = Some (JArr (JObj c0 :: rest)) ->
    obj_lookup c0 "text" = Some (JStr s) ->
    s <> EmptyString -> py_strip s = EmptyString ->
    bedrock_generate json_str invoke_model latency_ms gc
      = Raised ("Empty Bedrock completion. Raw: " ++ json_str (JObj kvs))%string.
Proof.
  intros json_str invoke_model latency_ms gc kvs c0 rest s Hi Hc Ht Hn Hs.
  unfold bedrock_generate, bedrock_extract, obj_get. rewrite Hi, Hc. simpl. rewrite Ht.
  destruct s as [|a s']; [contradiction|]. simpl. rewrite Hs. reflexivity.
Qed.

Lemma bedrock_generate_blank_text_witness :
  bedrock_generate data_placeholder (bedrock_replies (claude_data "  ")) 35 sample_gen_call
    = Raised "Empty Bedrock completion. Raw: <data>"%string.
Proof.
  exact (bedrock_generate_blank_text data_placeholder (bedrock_replies (claude_data "  "))
           35 sample_gen_call _ _ [] "  " eq_refl eq_refl eq_refl
           ltac:(discriminate) eq_refl).
Defined.

(** A body that is not a JSON object, or whose non-empty [content] list
    starts with something other than an object, makes [generate] raise
    ["Unexpected Bedrock response format: <data>"]. *)
Theorem bedrock_generate_format_error :
  forall json_str invoke_model latency_ms gc data,
    invoke_model (gc_model_or_deployment gc) (bedrock_body gc) = inl data ->
    ((forall kvs, data <> JObj kvs) \/
     exists kvs x rest, data = JObj kvs /\
                        obj_lookup kvs "content" = Some (JArr (x :: rest)) /\
                        forall c0, x <> JObj c0) ->
    bedrock_generate json_str invoke_model latency_ms gc
      = Raised ("Unexpected Bedrock response format: " ++ json_str data)%string.
Proof.
  intros json_str invoke_model latency_ms gc data Hi Hd.
  unfold bedrock_generate. rewrite Hi.
  assert (Hx : bedrock_extract data = None).
  { destruct Hd as [Hn|(kvs & x & rest & -> & Hc & Hx)].
    - destruct data as [| | | | |kvs]; try reflexivity. exfalso. exact (Hn kvs eq_refl).
    - assert (Hg : obj_get kvs "content" (JArr []) = JArr (x :: rest))
        by (unfold obj_get; rewrite Hc; reflexivity).
      unfold bedrock_extract. rewrite Hg. simpl.
      destruct x as [| | | | |c0]; try reflexivity. exfalso. exact (Hx c0 eq_refl). }
  rewrite Hx. reflexivity.
Qed.

Lemma bedrock_generate_format_error_witness :
  bedrock_generate data_placeholder (bedrock_replies string_content_data) 35 sample_gen_call
    = Raised "Unexpected Bedrock response format: <data>"%string.
Proof.
  refine (bedrock_generate_format_error data_placeholder (bedrock_replies string_content_data)
            35 sample_gen_call string_content_data eq_refl _).
  right. exists [("content", JArr [JStr "not a dict"])]%string, (JStr "not a dict"), [].
  split; [reflexivity|]. split; [reflexivity|]. intros c0; discriminate.
Defined.

(* ------------------------------------------------------------------ *)
(** ** Further properties: the [/generate] endpoint *)

(** The endpoint never lets an exception out: it answers 200 with the run's
    result (whose [request_id] is the minted id) or an error with status 500,
    and leaves the sink as the run left it.  With a reliable logger the 500
    answer happens only when both attempts fail, with the both-failed
    message as its detail. *)
Theorem generate_endpoint_replies :
  forall app_cfg az bd req e rid s,
    snd (generate_endpoint app_cfg az bd req e rid s)
      = snd (run_generation app_cfg az bd req e rid s) /\
    match fst (generate_endpoint app_cfg az bd req e rid s) with
    | Raise _ => False
    | Ok (Http200 r) => request_id r = rid
    | Ok (HttpError st _) => st = 500
    end /\
    (reliable_logging app_cfg e ->
     let sp := build_system_prompt (task req) in
     let '(p, sc) := choose_models req az bd in
     forall st d,
       fst (generate_endpoint app_cfg az bd req e rid s) = Ok (HttpError st d) ->
       exists e1 e2,
         attempt_error e app_cfg req sp p = Some e1 /\
         attempt_error e app_cfg req sp sc = Some e2 /\
         d = ("Both providers failed. Primary: " ++ exn_str e1
              ++ "; Secondary: " ++ exn_str e2)%string).
Proof.
  intros app_cfg az bd req e rid s.
  pose proof (run_generation_request_id app_cfg az bd req e rid s) as Rid.
  pose proof (run_reliable_outcome app_cfg az bd req e rid s) as RO.
  unfold generate_endpoint, try_except, bind, ret.
  destruct (run_generation app_cfg az bd req e rid s) as [[r|ex] s'] eqn:R.
  - simpl. split; [reflexivity|]. split; [exact (Rid r eq_refl)|].
    intros _. cbv zeta. destruct (choose_models req az bd) as [p sc].
    intros st d H. discriminate H.
  - simpl. split; [reflexivity|]. split; [reflexivity|].
    intros Hrel. cbv zeta. specialize (RO Hrel). cbv zeta in RO.
    destruct (choose_models req az bd) as [p sc].
    try rewrite R in RO. simpl in RO. destruct RO as (m1 & m2 & H1 & H2 & ->).
    intros st d H. inversion H; subst. exists m1, m2. repeat split; assumption.
Qed.

(* ------------------------------------------------------------------ *)
(** ** Further properties: the records a run writes *)

Lemma appends_all_refl P s : appends_all P s s.
Proof. exists []. rewrite app_nil_r. split; [reflexivity|constructor]. Qed.

Lemma appends_all_trans P s1 s2 s3 :
  appends_all P s1 s2 -> appends_all P s2 s3 -> appends_all P s1 s3.
Proof.
  intros (n1 & H1 & F1) (n2 & H2 & F2). exists (n1 ++ n2).
  rewrite H2, H1, app_assoc. split; [reflexivity|]. apply Forall_app; split; assumption.
Qed.

Lemma usage_log_all (P : UsageRecord -> Prop) e r s :
  P r -> appends_all P s (snd (usage_log e r s)).
Proof.
  intros Hr. unfold usage_log. destruct (log_fault e (log_calls s)); simpl.
  - exists []. rewrite app_nil_r. split; [reflexivity|constructor].
  - exists [r]. split; [reflexivity|]. constructor; [exact Hr|constructor].
Qed.

Lemma substring_length_le (n m : nat) (str : string) :
  (String.length (substring n m str) <= m)%nat.
Proof.
  revert n m. induction str as [|c str IH]; intros n m.
  - destruct n, m; simpl; lia.
  - destruct n as [|n].
    + destruct m as [|m]; simpl; [lia|]. specialize (IH 0%nat m). lia.
    + simpl. apply IH.
Qed.

Lemma repeat_string_length (n : nat) (c : ascii) :
  String.length (repeat_string n c) = n.
Proof. unfold repeat_string. induction n as [|n IH]; simpl; [reflexivity|]. rewrite IH. reflexivity. Qed.

(** Whatever value [est_tokens] accepts, it counts as many tokens as some
    string. *)
Lemma est_tokens_value_string (v : Json) (t : Z) :
  est_tokens_value v = Some t -> exists out, est_tokens out = t.
Proof.
  unfold est_tokens_value. destruct (negb (py_truthy v)).
  - intros H. inversion H. exists EmptyString. reflexivity.
  - destruct (py_len v) as [[|n]|]; intros H; inversion H.
    + exists "a"%string. reflexivity.
    + exists (String "a"%char (repeat_string n "a"%char)).
      unfold est_tokens, py_len_div4.
      change (String.length (String "a"%char (repeat_string n "a"%char)))
        with (S (String.length (repeat_string n "a"%char))).
      rewrite repeat_string_length. reflexivity.
Qed.

Lemma estimate_cost_value_some ep prompt_text v cin cout est :
  estimate_cost_value ep prompt_text v cin cout = Some est ->
  exists out, est = estimate_cost ep prompt_text out cin cout.
Proof.
  unfold estimate_cost_value. destruct (est_tokens_value v) as [t|] eqn:Ev; [|discriminate].
  intros H. inversion H. destruct (est_tokens_value_string v t Ev) as [out Ho].
  exists out. unfold estimate_cost. rewrite Ho. reflexivity.
Qed.

Lemma provider_route_prices e app_cfg pn gen ep cin cout p out :
  provider_route e app_cfg pn = (gen, ep, cin, cout) ->
  estimate_cost ep p out cin cout =
  if String.eqb pn "azure"
  then estimate_cost "azure" p out (azure_cost_per_1k_input_usd app_cfg)
                     (azure_cost_per_1k_output_usd app_cfg)
  else estimate_cost "bedrock" p out (bedrock_cost_per_1k_input_usd app_cfg)
                     (bedrock_cost_per_1k_output_usd app_cfg).
Proof.
  unfold provider_route. destruct (String.eqb pn "azure"); intros H; inversion H; reflexivity.
Qed.

Lemma log_success_records e app_cfg req rid pn pm sels est lat out s :
  In (pn, pm) sels ->
  est = (if String.eqb pn "azure"
         then estimate_cost "azure" (prompt req) out (azure_cost_per_1k_input_usd app_cfg)
                            (azure_cost_per_1k_output_usd app_cfg)
         else estimate_cost "bedrock" (prompt req) out (bedrock_cost_per_1k_input_usd app_cfg)
                            (bedrock_cost_per_1k_output_usd app_cfg)) ->
  appends_all (run_record app_cfg req rid sels) s
              (snd (log_success e app_cfg req rid pn pm est lat s)).
Proof.
  intros Hin He. unfold log_success.
  destruct (enable_request_logging app_cfg); [|apply appends_all_refl].
  apply usage_log_all.
  split; [reflexivity|]. split; [exact Hin|]. split.
  - split; [reflexivity|split; [reflexivity|left; split; reflexivity]].
  - intros _. exists out. exact He.
Qed.

Lemma call_records e app_cfg req sp rid pn pm sels s :
  In (pn, pm) sels ->
  appends_all (run_record app_cfg req rid sels) s (snd (call e app_cfg req sp rid pn pm s)).
Proof.
  intros Hin. unfold call.
  destruct (provider_route e app_cfg pn) as [[[gen ep] cin] cout] eqn:Hr.
  destruct (gen (gen_call app_cfg req sp pm)) as [out lat|v lat|m];
    [| |apply appends_all_refl].
  - cbv zeta. unfold bind.
    pose proof (log_success_records e app_cfg req rid pn pm sels
                  (estimate_cost ep (prompt req) out cin cout) lat out s Hin
                  (provider_route_prices _ _ _ _ _ _ _ _ _ Hr)) as A.
    destruct (log_success e app_cfg req rid pn pm _ lat s) as [[u|x] s1]; exact A.
  - destruct (estimate_cost_value ep (prompt req) v cin cout) as [est|] eqn:Ev;
      [|apply appends_all_refl].
    destruct (estimate_cost_value_some _ _ _ _ _ _ Ev) as [out ->].
    unfold bind.
    pose proof (log_success_records e app_cfg req rid pn pm sels
                  (estimate_cost ep (prompt req) out cin cout) lat out s Hin
                  (provider_route_prices _ _ _ _ _ _ _ _ _ Hr)) as A.
    destruct (log_success e app_cfg req rid pn pm _ lat s) as [[u|x] s1];
      [destruct v|]; exact A.
Qed.

Lemma log_attempt_failure_records e app_cfg req rid sel err sels s :
  In sel sels ->
  appends_all (run_record app_cfg req rid sels) s
              (snd (log_attempt_failure e app_cfg req rid sel err s)).
Proof.
  intros Hin. unfold log_attempt_failure.
  destruct (enable_request_logging app_cfg); [|apply appends_all_refl].
  apply usage_log_all.
  split; [reflexivity|]. split; [destruct sel; exact Hin|]. split.
  - split; [reflexivity|split; [reflexivity|]]. right.
    split; [reflexivity|split; [reflexivity|split; [reflexivity|]]].
    eexists. split; [reflexivity|]. apply substring_length_le.
  - intros H. discriminate H.
Qed.

(** Every record a run appends, whatever its collaborators do, names one of
    the two selections, carries the request's id, task and priority; a
    success record has no error and is priced with its own provider's
    rates; a failure record has zero latency, the prompt-only estimate with
    zero cost, and an error message of at most 500 characters. *)
Theorem run_generation_record_fields :
  forall app_cfg az bd req e rid s,
    let '(p, sc) := choose_models req az bd in
    appends_all (run_record app_cfg req rid [p; sc]) s
                (snd (run_generation app_cfg az bd req e rid s)).
Proof.
  intros app_cfg az bd req e rid s.
  rewrite run_generation_steps. cbv zeta.
  destruct (choose_models req az bd) as [p sc].
  set (sp := build_system_prompt (task req)).
  set (sels := [p; sc]).
  assert (Ip : In p sels) by (simpl; tauto).
  assert (Is : In sc sels) by (simpl; tauto).
  pose proof (call_records e app_cfg req sp rid (fst p) (snd p) sels s
                ltac:(destruct p; exact Ip)) as A1.
  destruct (call e app_cfg req sp rid (fst p) (snd p) s) as [[pr|e1] s1]; [exact A1|].
  pose proof (log_attempt_failure_records e app_cfg req rid p e1 sels s1 Ip) as A2.
  pose proof (appends_all_trans _ _ _ _ A1 A2) as A12.
  destruct (log_attempt_failure e app_cfg req rid p e1 s1) as [[u|x] s2]; [|exact A12].
  pose proof (call_records e app_cfg req sp rid (fst sc) (snd sc) sels s2
                ltac:(destruct sc; exact Is)) as A3.
  pose proof (appends_all_trans _ _ _ _ A12 A3) as A13.
  destruct (call e app_cfg req sp rid (fst sc) (snd sc) s2) as [[sr|e2] s3]; [exact A13|].
  pose proof (log_attempt_failure_records e app_cfg req rid sc e2 sels s3 Is) as A4.
  pose proof (appends_all_trans _ _ _ _ A13 A4) as A14.
  destruct (log_attempt_failure e app_cfg req rid sc e2 s3) as [[u'|x] s4]; exact A14.
Qed.

(* ------------------------------------------------------------------ *)
(** ** Further properties: the secondary is consulted only on failure *)

Lemma call_congr_ok e e' app_cfg req sp rid pn pm s t l :
  invoke e app_cfg req sp (pn, pm) = GenOk t l ->
  invoke e' app_cfg req sp (pn, pm) = GenOk t l ->
  (forall n, log_fault e n = log_fault e' n) ->
  call e app_cfg req sp rid pn pm s = call e' app_cfg req sp rid pn pm s.
Proof.
  intros H1 H2 Hl. unfold invoke, call, provider_route in *.
  cbv beta iota zeta delta [fst snd] in H1, H2.
  destruct (String.eqb pn "azure"); cbv beta iota zeta in H1, H2 |- *; rewrite H1, H2;
    unfold bind, log_success; destruct (enable_request_logging app_cfg); try reflexivity;
    unfold usage_log; rewrite Hl; reflexivity.
Qed.

(** With a reliable logger, once the primary invocation succeeds the
    secondary adapter plays no part: collaborators that answer the primary
    call alike and share the logger give the same run, whatever their
    secondary adapters do. *)
Theorem run_generation_primary_success_ignores_secondary :
  forall app_cfg az bd req e e' rid s,
    reliable_logging app_cfg e ->
    let sp := build_system_prompt (task req) in
    let '(p, sc) := choose_models req az bd in
    forall t l,
      invoke e app_cfg req sp p = GenOk t l ->
      invoke e' app_cfg req sp p = GenOk t l ->
      (forall n, log_fault e n = log_fault e' n) ->
      run_generation app_cfg az bd req e rid s = run_generation app_cfg az bd req e' rid s.
Proof.
  intros app_cfg az bd req e e' rid s Hrel sp.
  rewrite !run_generation_steps. cbv zeta. fold sp.
  destruct (choose_models req az bd) as [[pn pm] [sn sm]]. simpl fst; simpl snd.
  intros t l H1 H2 Hl.
  destruct (call_reliable_ok e app_cfg req sp rid pn pm s t l Hrel H1) as (pr & s1 & Hc & _).
  rewrite <- (call_congr_ok e e' app_cfg req sp rid pn pm s t l H1 H2 Hl).
  rewrite Hc. reflexivity.
Qed.

Lemma run_generation_primary_success_ignores_secondary_witness :
  run_generation default_app_config sample_azure sample_bedrock (sample_request low_cost None)
    (make_env (always_fail "HTTP 500") (always_ok "answer") no_fault) "rid-1"%string initial_state
  = run_generation default_app_config sample_azure sample_bedrock (sample_request low_cost None)
    (make_env (always_ok "other") (always_ok "answer") no_fault) "rid-1"%string initial_state.
Proof.
  exact (run_generation_primary_success_ignores_secondary default_app_config sample_azure
           sample_bedrock (sample_request low_cost None)
           (make_env (always_fail "HTTP 500") (always_ok "answer") no_fault)
           (make_env (always_ok "other") (always_ok "answer") no_fault) "rid-1"%string initial_state
           (or_intror (fun _ => eq_refl)) "answer"%string 120 eq_refl eq_refl (fun _ => eq_refl)).
Defined.

(* ------------------------------------------------------------------ *)
(** ** Further properties: the cost estimator *)


(** [est_tokens] is 0 exactly on the empty string, at least 1 and at most
    the character count otherwise, and from 4 characters on it is the
    character count divided by 4, rounded down. *)
Theorem est_tokens_bounds :
  forall s,
    (est_tokens s = 0 <-> s = EmptyString) /\
    0 <= est_tokens s <= Z.of_nat (String.length s) /\
    ((4 <= String.length s)%nat ->
     4 * est_tokens s <= Z.of_nat (String.length s) < 4 * est_tokens s + 4).
Proof.
  intros s. rewrite est_tokens_tokens_ref. unfold tokens_ref.
  destruct s as [|c s'].
  - simpl. split; [split; reflexivity|]. split; [lia|]. intros H; lia.
  - assert (E : (String.length (String c s') =? 0)%nat = false) by reflexivity.
    rewrite E.
    set (n := Z.of_nat (String.length (String c s'))).
    assert (Hn : 1 <= n) by (unfold n; simpl String.length; lia).
    pose proof (Z.div_mod n 4 ltac:(lia)) as Hdm.
    pose proof (Z.mod_pos_bound n 4 ltac:(lia)) as Hb.
    split; [split; [intros H0; lia|discriminate]|]. split; [lia|].
    intros H4. assert (4 <= n) by (unfold n; lia). lia.
Qed.



(* ------------------------------------------------------------------ *)
(** ** Further properties: the hint *)

(** A hinted provider is always the primary: the hint names the first
    selection's provider, and the second selection is the table's other
    one. *)
Theorem choose_models_hint_primary :
  forall req az bd h,
    provider_hint req = Some h ->
    fst (fst (choose_models req az bd)) = hint_str h /\
    (let '(p, sc) := routing_table (priority req) az bd in
     In (snd (choose_models req az bd)) [p; sc]).
Proof.
  intros [pr t pri m tmp tp hint md] az bd h Hh. simpl in Hh. subst hint.
  destruct pri, h; vm_compute; split; try reflexivity; tauto.
Qed.

Lemma choose_models_hint_primary_witness :
  fst (fst (choose_models (sample_request low_latency (Some hint_bedrock))
                          sample_azure sample_bedrock)) = "bedrock"%string /\
  In (snd (choose_models (sample_request low_latency (Some hint_bedrock))
                         sample_azure sample_bedrock))
     [("azure", "gpt-4o-mini-fast"); ("bedrock", "claude-haiku-fast")]%string.
Proof.
  exact (choose_models_hint_primary (sample_request low_latency (Some hint_bedrock))
           sample_azure sample_bedrock hint_bedrock eq_refl).
Defined.
